(** * Task management: progress and time-tracking rules

    A shallow embedding of the two models of the repository,
    [models/task_management.py] (class [TaskManagement]) and
    [models/task_timesheet_line.py] (class [TaskTimesheetLine]), and the
    properties of their computed fields, onchange handlers, constraints
    and summary queries.

    Conventions of the embedding.
    - An ORM [Float] field holds a finite number.  In the records [Task]
      and [Line] it is modelled by a rational of [Q] with exact arithmetic
      and the equality [==]; these records carry the statements that do
      not depend on the rounding of a result.  Where the outcome depends
      on the binary64 value that Python computes (on which side of a
      threshold a quotient falls, which whole minute a product reaches),
      the method is modelled a second time in the module [Binary64], on
      the binary64 numbers of the kernel, and the statement is made there.
    - A [Date] is modelled by its proleptic Gregorian ordinal, the number
      [date.toordinal()] of Python; dates compare as their ordinals do and
      [timedelta(days=k)] adds [k].
    - A recordset is a list of records; [for r in self] is a traversal of
      that list.
    - A Many2one field holds the record it points to, or [None] when it is
      empty (the falsy empty recordset of the ORM). *)

From Stdlib Require Import ZArith QArith Qabs Qminmax List String Ascii Bool Lia.
From Stdlib Require Import Permutation Sorting.Sorted.
From Stdlib Require Import DecimalString.
From Stdlib Require PrimFloat FloatOps SpecFloat.
Import ListNotations.

Open Scope Q_scope.

(** ** Python values *)

Module Py.

(** [x < y] on floats, as a boolean. *)
Definition ltb (x y : Q) : bool := negb (Qle_bool y x).

(** [x <= y] on floats, as a boolean. *)
Definition leb (x y : Q) : bool := Qle_bool x y.

(** Truth value of a float: every number but zero is true. *)
Definition truthy (x : Q) : bool := negb (Qeq_bool x 0).

(** [x or y] on floats. *)
Definition or_else (x y : Q) : Q := if truthy x then x else y.

(** The builtin [min(a, b)]: the first argument unless the second is
    strictly smaller. *)
Definition min (a b : Q) : Q := if ltb b a then b else a.

(** The builtin [abs]. *)
Definition abs (x : Q) : Q := if ltb x 0 then - x else x.

(** The builtin [sum] over a list of floats: a left fold from [0]. *)
Definition sum (l : list Q) : Q := fold_left Qplus l 0.

(** Truth value of a string: every string but the empty one is true.
    An unset [Char] field reads [False], which is modelled by the empty
    string. *)
Definition nonempty (s : string) : bool :=
  match s with EmptyString => false | _ => true end.

End Py.

(** ** Dates *)

(** A calendar date, by ordinal. *)
Definition date := Z.

(** A point in time ([Datetime] field), in seconds. *)
Definition datetime := Z.

Bind Scope Z_scope with date datetime.

Module PyDate.

(** [date.weekday()]: Monday is 0 and Sunday is 6. *)
Definition weekday (d : date) : Z := ((d + 6) mod 7)%Z.

(** [d + timedelta(days=k)] and [d - timedelta(days=k)]. *)
Definition add_days (d : date) (k : Z) : date := (d + k)%Z.
Definition sub_days (d : date) (k : Z) : date := (d - k)%Z.

(** [a > b] on dates. *)
Definition gtb (a b : date) : bool := (b <? a)%Z.

Definition _DAYS_IN_MONTH : list Z :=
  [-1; 31; 28; 31; 30; 31; 30; 31; 31; 30; 31; 30; 31]%Z.

Definition _DAYS_BEFORE_MONTH : list Z :=
  [-1; 0; 31; 59; 90; 120; 151; 181; 212; 243; 273; 304; 334]%Z.

Definition b2z (b : bool) : Z := if b then 1%Z else 0%Z.

(** [_ord2ymd] of the standard [datetime] module: year, month and day
    of an ordinal. *)
Definition _ord2ymd (n : Z) : Z * Z * Z :=
  (let n := n - 1 in
   let n400 := n / 146097 in
   let n := n mod 146097 in
   let year := n400 * 400 + 1 in
   let n100 := n / 36524 in
   let n := n mod 36524 in
   let n4 := n / 1461 in
   let n := n mod 1461 in
   let n1 := n / 365 in
   let n := n mod 365 in
   let year := year + n100 * 100 + n4 * 4 + n1 in
   if (n1 =? 4) || (n100 =? 4) then (year - 1, 12, 31)
   else
     let leapyear := (n1 =? 3) && (negb (n4 =? 24) || (n100 =? 3)) in
     let month := (n + 50) / 32 in
     let preceding :=
       nth (Z.to_nat month) _DAYS_BEFORE_MONTH 0
       + b2z ((2 <? month) && leapyear) in
     if n <? preceding then
       let month := month - 1 in
       let preceding :=
         preceding - (nth (Z.to_nat month) _DAYS_IN_MONTH 0
                      + b2z ((month =? 2) && leapyear)) in
       (year, month, n - preceding + 1)
     else (year, month, n - preceding + 1))%Z.

(** One decimal digit. *)
Definition digit (n : Z) : string :=
  String (ascii_of_nat (48 + Z.to_nat (n mod 10))) EmptyString.

(** [strftime('%Y-%m-%d')], for the four-digit years of the calendar. *)
Definition strftime_Ymd (d : date) : string :=
  let '(y, m, dd) := _ord2ymd d in
  (digit (y / 1000) ++ digit (y / 100) ++ digit (y / 10) ++ digit y ++ "-"
   ++ digit (m / 10) ++ digit m ++ "-" ++ digit (dd / 10) ++ digit dd)%string.

End PyDate.

(** ** Records of the data model *)

(** A Many2one to a model of which the code reads [id] and [name] only
    ([res.users]; [task.management] seen from a time log). *)
Record Ref := mkRef {
  ref_id : Z;
  ref_name : string
}.

(** [task.stage]: the model is declared outside the two files; these are
    the fields the code reads. *)
Record Stage := mkStage {
  stage_name : string;
  stage_type : string;
  stage_is_closed : bool
}.

(** [task.subtask]: the model is declared outside the two files; these
    are the fields the code reads. *)
Record Subtask := mkSubtask {
  subtask_id : Z;
  subtask_name : string;
  parent_task_id : Z;
  is_done : bool;
  deadline : option date
}.

(** [task.timesheet.line] *)
Record Line := mkLine {
  line_id : Z;
  line_name : string;
  line_task_id : Ref;
  line_subtask_id : option Subtask;
  line_user_id : Ref;
  line_date : date;
  unit_amount : Q
}.

(** Selection values of [kanban_state]. *)
Inductive KanbanState := Knormal | Kdone | Kblocked.

(** [task.management] *)
Record Task := mkTask {
  task_id : Z;
  task_name : string;
  stage_id : option Stage;
  kanban_state : KanbanState;
  date_end : option datetime;
  progress : Q;
  planned_hours : Q;
  effective_hours : Q;
  remaining_hours : Q;
  timesheet_ids : list Line;
  subtask_ids : list Subtask;
  is_closed : bool
}.

(** Field assignments [task.f = v]. *)
Definition set_progress (v : Q) (t : Task) : Task :=
  mkTask (task_id t) (task_name t) (stage_id t) (kanban_state t) (date_end t)
         v (planned_hours t) (effective_hours t) (remaining_hours t)
         (timesheet_ids t) (subtask_ids t) (is_closed t).

Definition set_effective_hours (v : Q) (t : Task) : Task :=
  mkTask (task_id t) (task_name t) (stage_id t) (kanban_state t) (date_end t)
         (progress t) (planned_hours t) v (remaining_hours t)
         (timesheet_ids t) (subtask_ids t) (is_closed t).

Definition set_remaining_hours (v : Q) (t : Task) : Task :=
  mkTask (task_id t) (task_name t) (stage_id t) (kanban_state t) (date_end t)
         (progress t) (planned_hours t) (effective_hours t) v
         (timesheet_ids t) (subtask_ids t) (is_closed t).

Definition set_kanban_state (v : KanbanState) (t : Task) : Task :=
  mkTask (task_id t) (task_name t) (stage_id t) v (date_end t)
         (progress t) (planned_hours t) (effective_hours t) (remaining_hours t)
         (timesheet_ids t) (subtask_ids t) (is_closed t).

Definition set_date_end (v : option datetime) (t : Task) : Task :=
  mkTask (task_id t) (task_name t) (stage_id t) (kanban_state t) v
         (progress t) (planned_hours t) (effective_hours t) (remaining_hours t)
         (timesheet_ids t) (subtask_ids t) (is_closed t).

Definition set_is_closed (v : bool) (t : Task) : Task :=
  mkTask (task_id t) (task_name t) (stage_id t) (kanban_state t) (date_end t)
         (progress t) (planned_hours t) (effective_hours t) (remaining_hours t)
         (timesheet_ids t) (subtask_ids t) v.

Definition set_subtask_ids (v : list Subtask) (t : Task) : Task :=
  mkTask (task_id t) (task_name t) (stage_id t) (kanban_state t) (date_end t)
         (progress t) (planned_hours t) (effective_hours t) (remaining_hours t)
         (timesheet_ids t) v (is_closed t).

(** Truth value of a recordset: the empty one is false. *)
Definition nonempty_set {A} (l : list A) : bool :=
  match l with [] => false | _ => true end.

(** [recordset.filtered('is_done')] *)
Definition filtered_is_done (l : list Subtask) : list Subtask :=
  filter is_done l.

(** [len(recordset)] as a number. *)
Definition len {A} (l : list A) : Q := inject_Z (Z.of_nat (List.length l)).

(** ** [TaskManagement] *)

Module TaskManagement.

(** [_compute_effective_hours], body of the loop. *)
Definition _compute_effective_hours_1 (task : Task) : Task :=
  set_effective_hours (Py.sum (map unit_amount (timesheet_ids task))) task.

Definition _compute_effective_hours (self : list Task) : list Task :=
  map _compute_effective_hours_1 self.

(** The first definition of [_compute_remaining_hours] in the class
    body (the later definition of the same name replaces it). *)
Definition _compute_remaining_hours_first_1 (task : Task) : Task :=
  set_remaining_hours
    (Py.or_else (planned_hours task) 0 - effective_hours task) task.

Definition _compute_remaining_hours_first (self : list Task) : list Task :=
  map _compute_remaining_hours_first_1 self.

(** The second definition of [_compute_remaining_hours], the one bound
    to the class: body of the loop.  The numbers are rationals: the value
    of [remaining_hours] and the bounds of [progress] are read from this
    definition; the side of the band of 5 points on which a binary64
    quotient falls is read from [Binary64._compute_remaining_hours_1]. *)
Definition _compute_remaining_hours_1 (task : Task) : Task :=
  let task :=
    set_remaining_hours
      (Py.or_else (planned_hours task) 0 - effective_hours task) task in
  if Py.ltb 0 (planned_hours task) && negb (nonempty_set (subtask_ids task))
  then
    let hours_progress :=
      Py.min (100 # 1)
             (effective_hours task / planned_hours task * (100 # 1)) in
    if Py.ltb (5 # 1) (Py.abs (progress task - hours_progress))
    then set_progress hours_progress task
    else task
  else task.

Definition _compute_remaining_hours (self : list Task) : list Task :=
  map _compute_remaining_hours_1 self.

(** [_compute_is_closed], body of the loop. *)
Definition _compute_is_closed_1 (task : Task) : Task :=
  set_is_closed
    (match stage_id task with
     | Some stage => stage_is_closed stage
     | None => false
     end) task.

Definition _compute_is_closed (self : list Task) : list Task :=
  map _compute_is_closed_1 self.

(** [stage.stage_type in ['done', 'cancelled']] *)
Definition stage_type_closed (stage : Stage) : bool :=
  (stage_type stage =? "done")%string || (stage_type stage =? "cancelled")%string.

(** [_onchange_stage_id]; [now] is the value of [fields.Datetime.now()]. *)
Definition _onchange_stage_id (now : datetime) (self : Task) : Task :=
  match stage_id self with
  | Some stage =>
      let self :=
        if (stage_name stage =? "To-Do")%string then
          set_kanban_state Knormal (set_progress 0 self)
        else if (stage_name stage =? "In Progress")%string then
          set_kanban_state Knormal (set_progress (40 # 1) self)
        else if (stage_name stage =? "Review")%string then
          set_kanban_state Knormal (set_progress (70 # 1) self)
        else if (stage_name stage =? "Done")%string then
          set_kanban_state Kdone
            (set_date_end (Some now) (set_progress (100 # 1) self))
        else if (stage_name stage =? "Cancelled")%string then
          set_kanban_state Kblocked (set_progress 0 self)
        else self in
      if stage_type_closed stage
      then set_is_closed true self
      else set_is_closed false self
  | None => self
  end.

(** [task.stage_id.name]: the name of an empty stage reads [False],
    which equals no string. *)
Definition stage_name_is (task : Task) (s : string) : bool :=
  match stage_id task with
  | Some stage => (stage_name stage =? s)%string
  | None => false
  end.

(** [update_progress_from_subtasks], body of the loop. *)
Definition update_progress_from_subtasks_1 (task : Task) : Task :=
  if nonempty_set (subtask_ids task) then
    let total := len (subtask_ids task) in
    let done := len (filtered_is_done (subtask_ids task)) in
    set_progress (if Py.ltb 0 total then done / total * (100 # 1) else 0) task
  else if stage_name_is task "To-Do" then set_progress 0 task
  else if stage_name_is task "In Progress" then set_progress (40 # 1) task
  else if stage_name_is task "Review" then set_progress (70 # 1) task
  else if stage_name_is task "Done" then set_progress (100 # 1) task
  else if stage_name_is task "Cancelled" then set_progress 0 task
  else task.

Definition update_progress_from_subtasks (self : list Task) : list Task :=
  map update_progress_from_subtasks_1 self.

(** One element of the ['entries'] list of a group. *)
Record TimeEntry := mkTimeEntry {
  te_date : date;
  te_user : string;
  te_hours : Q
}.

(** One value of the [subtask_times] dictionary. *)
Record SubtaskTime := mkSubtaskTime {
  st_name : string;
  st_total_hours : Q;
  st_entries : list TimeEntry
}.

(** A dictionary with integer keys, in insertion order. *)
Definition dict (V : Type) := list (Z * V).

Fixpoint dict_get {V} (k : Z) (d : dict V) : option V :=
  match d with
  | [] => None
  | (k', v) :: d' => if (k =? k')%Z then Some v else dict_get k d'
  end.

Fixpoint dict_set {V} (k : Z) (v : V) (d : dict V) : dict V :=
  match d with
  | [] => [(k, v)]
  | (k', v') :: d' =>
      if (k =? k')%Z then (k, v) :: d' else (k', v') :: dict_set k v d'
  end.

(** The result of [get_time_tracking_summary]. *)
Record TimeTrackingSummary := mkTimeTrackingSummary {
  total_planned : Q;
  total_spent : Q;
  remaining : Q;
  progress_percent : Q;
  by_subtask : dict SubtaskTime;
  is_over_budget : bool
}.

(** One turn of the loop over [self.timesheet_ids]. *)
Definition group_timesheet (subtask_times : dict SubtaskTime) (timesheet : Line)
  : dict SubtaskTime :=
  let subtask_key :=
    match line_subtask_id timesheet with
    | Some s => subtask_id s
    | None => 0%Z
    end in
  let group :=
    match dict_get subtask_key subtask_times with
    | Some g => g
    | None =>
        mkSubtaskTime
          (match line_subtask_id timesheet with
           | Some s => subtask_name s
           | None => "Other Work"%string
           end) 0 []
    end in
  dict_set subtask_key
    (mkSubtaskTime (st_name group)
       (st_total_hours group + unit_amount timesheet)
       (st_entries group
        ++ [mkTimeEntry (line_date timesheet)
                        (ref_name (line_user_id timesheet))
                        (unit_amount timesheet)]))
    subtask_times.

(** [get_time_tracking_summary] on the single record [self]. *)
Definition get_time_tracking_summary (self : Task) : TimeTrackingSummary :=
  let subtask_times := fold_left group_timesheet (timesheet_ids self) [] in
  mkTimeTrackingSummary
    (planned_hours self) (effective_hours self) (remaining_hours self)
    (progress self) subtask_times
    (if Py.truthy (planned_hours self)
     then Py.ltb (planned_hours self) (effective_hours self)
     else false).

End TaskManagement.

(** ** [TaskTimesheetLine] *)

Module TaskTimesheetLine.

(** What the methods read of [self.env]. *)
Record Env := mkEnv {
  (** [self.env.user] *)
  env_user : Ref;
  (** [self.env.context.get('skip_duration_warning')] *)
  skip_duration_warning : bool;
  (** [fields.Datetime.now().date()] *)
  datetime_now_date : date;
  (** [fields.Date.today()] *)
  date_today : date;
  (** [fields.Date.context_today], the default of [date] *)
  context_today : date
}.

Definition set_line_name (v : string) (r : Line) : Line :=
  mkLine (line_id r) v (line_task_id r) (line_subtask_id r) (line_user_id r)
         (line_date r) (unit_amount r).


Definition set_line_date (v : date) (r : Line) : Line :=
  mkLine (line_id r) (line_name r) (line_task_id r) (line_subtask_id r)
         (line_user_id r) v (unit_amount r).


(** [record.subtask_id and record.subtask_id.deadline]: the deadline of
    the subtask of the entry, when both are set. *)
Definition subtask_deadline (record : Line) : option date :=
  match line_subtask_id record with
  | Some subtask => deadline subtask
  | None => None
  end.

(** [_onchange_subtask_id], body of the loop. *)
Definition _onchange_subtask_id_1 (record : Line) : Line :=
  match line_subtask_id record with
  | Some subtask =>
      match deadline subtask with
      | Some d =>
          let record := set_line_date d record in
          if negb (Py.nonempty (line_name record))
          then set_line_name (subtask_name subtask) record
          else record
      | None => record
      end
  | None => record
  end.

Definition _onchange_subtask_id (self : list Line) : list Line :=
  map _onchange_subtask_id_1 self.

(** Exceptions of [odoo.exceptions] raised on a write. *)
Inductive Exception := ValidationError (msg : string).

(** The [{'warning': {'title': .., 'message': ..}}] dictionary. *)
Record Warning := mkWarning {
  warning_title : string;
  warning_message : string
}.

(** How a constraint method ends: it raises, or it returns a value
    ([None] when it falls off its end). *)
Inductive Outcome :=
| Raised (e : Exception)
| Returned (w : option Warning).

(** [_check_unit_amount]; the [return] in the loop leaves the method. *)
Fixpoint _check_unit_amount (env : Env) (self : list Line) : Outcome :=
  match self with
  | [] => Returned None
  | record :: rest =>
      if Py.leb (unit_amount record) 0 then
        Raised (ValidationError "Duration must be greater than 0 hours.")
      else if Py.ltb (24 # 1) (unit_amount record) then
        Raised (ValidationError
                  "Duration cannot exceed 24 hours for a single day.")
      else if Py.ltb (12 # 1) (unit_amount record)
              && negb (skip_duration_warning env) then
        Returned (Some (mkWarning "Long Duration"
          "You are logging more than 12 hours. Please confirm this is correct."))
      else _check_unit_amount env rest
  end.

(** The message of the deadline error, with [%s] filled in. *)
Definition deadline_message (d : date) : string :=
  ("You cannot log time after the subtask deadline ("
   ++ PyDate.strftime_Ymd d ++ ")")%string.

(** [_check_date] *)
Fixpoint _check_date (env : Env) (self : list Line) : Outcome :=
  match self with
  | [] => Returned None
  | record :: rest =>
      match subtask_deadline record with
      | Some d =>
          if PyDate.gtb (line_date record) d
          then Raised (ValidationError (deadline_message d))
          else _check_date env rest
      | None =>
          if PyDate.gtb (line_date record) (datetime_now_date env)
          then Raised (ValidationError "You cannot log time for future dates")
          else _check_date env rest
      end
  end.

(** The dictionary [vals] of [create] and [write]: [None] for a key that
    is absent. *)
Record Vals := mkVals {
  v_name : option string;
  v_task_id : option Ref;
  v_subtask_id : option (option Subtask);
  v_user_id : option Ref;
  v_date : option date;
  v_unit_amount : option Q
}.

(** The key [k] when the value is present. *)
Definition key {A} (k : string) (o : option A) : list string :=
  match o with Some _ => [k] | None => [] end.

(** The keys of [vals]. *)
Definition keys (vals : Vals) : list string :=
  key "name" (v_name vals) ++ key "task_id" (v_task_id vals)
  ++ key "subtask_id" (v_subtask_id vals) ++ key "user_id" (v_user_id vals)
  ++ key "date" (v_date vals) ++ key "unit_amount" (v_unit_amount vals).

(** *** [create], [write] and the constraints

    The class overrides [create] and inherits [write] from
    [models.Model].  A method under [@api.constrains(f, ...)] is called
    by the ORM on the records of a [create], for the fields that received
    a value, and on the records of a [write] whose values name one of the
    fields [f, ...]; an exception it raises aborts the operation. *)

(** The constraint methods of the class with the fields named by their
    [@api.constrains], in the order of the method names. *)
Definition _constraint_methods
  : list (list string * (Env -> list Line -> Outcome)) :=
  [ (["date"%string], _check_date);
    (["unit_amount"%string], _check_unit_amount) ].

Definition intersects (a b : list string) : bool :=
  existsb (fun x => existsb (String.eqb x) b) a.

(** [_validate_fields] of the ORM: a constraint method runs when one of
    its fields is among [field_names]; what it returns is dropped, what
    it raises ends the validation. *)
Fixpoint run_checks (checks : list (list string * (Env -> list Line -> Outcome)))
  (env : Env) (field_names : list string) (self : list Line)
  : option Exception :=
  match checks with
  | [] => None
  | (constrains, check) :: rest =>
      if intersects field_names constrains then
        match check env self with
        | Raised e => Some e
        | Returned _ => run_checks rest env field_names self
        end
      else run_checks rest env field_names self
  end.

Definition _validate_fields (env : Env) (field_names : list string)
  (self : list Line) : option Exception :=
  run_checks _constraint_methods env field_names self.

(** [vals.get(k, default)] *)
Definition get {A} (o : option A) (default : A) : A :=
  match o with Some x => x | None => default end.

(** The record that [super().create(vals)] inserts under the identifier
    [new_id] for the task [task]: the missing keys take the defaults of
    the field declarations. *)
Definition new_record (env : Env) (new_id : Z) (task : Ref) (vals : Vals)
  : Line :=
  mkLine new_id
         (get (v_name vals) EmptyString)
         task
         (get (v_subtask_id vals) None)
         (get (v_user_id vals) (env_user env))
         (get (v_date vals) (context_today env))
         (get (v_unit_amount vals) 0).

(** [super().create(vals)]: the record is inserted and the constraints
    of the fields that received a value, given or default, are checked.
    The required [task_id] has no default. *)
Definition orm_create (env : Env) (new_id : Z) (vals : Vals)
  : Exception + Line :=
  match v_task_id vals with
  | None =>
      inl (ValidationError
             "The operation cannot be completed: a mandatory field is not set.")
  | Some task =>
      let record := new_record env new_id task vals in
      match _validate_fields env
              (keys vals ++ ["user_id"; "date"; "unit_amount"]%string)
              [record] with
      | Some e => inl e
      | None => inr record
      end
  end.

Definition set_v_name (v : string) (vals : Vals) : Vals :=
  mkVals (Some v) (v_task_id vals) (v_subtask_id vals) (v_user_id vals)
         (v_date vals) (v_unit_amount vals).

(** [not vals.get('name')] *)
Definition no_name (vals : Vals) : bool :=
  match v_name vals with
  | Some s => negb (Py.nonempty s)
  | None => true
  end.

(** The head of [create]: the work description when none is given. *)
Definition autofill_name (vals : Vals) : Vals :=
  match v_subtask_id vals with
  | Some (Some subtask) =>
      if no_name vals
      then set_v_name ("Worked on: " ++ subtask_name subtask)%string vals
      else vals
  | _ =>
      if no_name vals then set_v_name "General work" vals else vals
  end.

(** [create] *)
Definition create (env : Env) (new_id : Z) (vals : Vals) : Exception + Line :=
  orm_create env new_id (autofill_name vals).

(** The assignment of the values of [vals] to one record. *)
Definition assign (vals : Vals) (r : Line) : Line :=
  mkLine (line_id r)
         (get (v_name vals) (line_name r))
         (get (v_task_id vals) (line_task_id r))
         (get (v_subtask_id vals) (line_subtask_id r))
         (get (v_user_id vals) (line_user_id r))
         (get (v_date vals) (line_date r))
         (get (v_unit_amount vals) (unit_amount r)).

(** [write], which the class inherits: every record of [self] takes the
    values of [vals], then the constraint methods of the fields named in
    [vals], and no other, are called on [self]. *)
Definition write (env : Env) (vals : Vals) (self : list Line)
  : Exception + list Line :=
  let self := map (assign vals) self in
  match _validate_fields env (keys vals) self with
  | Some e => inl e
  | None => inr self
  end.

(** [_order = 'date desc, id desc']: [a] is not after [b]. *)
Definition order_leb (a b : Line) : bool :=
  (line_date b <? line_date a)%Z
  || ((line_date a =? line_date b)%Z && (line_id b <=? line_id a)%Z).

Fixpoint insert_line (a : Line) (l : list Line) : list Line :=
  match l with
  | [] => [a]
  | b :: l' => if order_leb a b then a :: l else b :: insert_line a l'
  end.

(** [search(domain)] on the table of the model: the records that satisfy
    the domain, in the order of [_order]. *)
Definition search (domain : Line -> bool) (table : list Line) : list Line :=
  fold_right insert_line [] (filter domain table).

(** [recordset.mapped('task_id')]: the tasks of the records, each once,
    in the order of their first record. *)
Fixpoint mapped_task_id (l : list Line) : list Ref :=
  match l with
  | [] => []
  | r :: l' =>
      line_task_id r
      :: filter (fun t => negb (ref_id t =? ref_id (line_task_id r))%Z)
                (mapped_task_id l')
  end.

(** [len(set(values))] *)
Definition len_set (values : list Z) : nat :=
  List.length (nodup Z.eq_dec values).

(** One element of ['details']. *)
Record Detail := mkDetail {
  detail_task : string;
  detail_hours : Q;
  detail_entries : nat
}.

(** The result of [get_weekly_summary]. *)
Record WeeklySummary := mkWeeklySummary {
  total_hours : Q;
  days_worked : nat;
  tasks_worked : nat;
  details : list Detail
}.

(** The three defaults at the head of [get_weekly_summary]. *)
Definition default_user_id (env : Env) (user_id : option Z) : Z :=
  match user_id with
  | Some u => if (u =? 0)%Z then ref_id (env_user env) else u
  | None => ref_id (env_user env)
  end.

Definition default_date_from (env : Env) (date_from : option date) : date :=
  match date_from with
  | Some d => d
  | None =>
      let today := date_today env in
      PyDate.sub_days today (PyDate.weekday today)
  end.

Definition default_date_to (date_from : date) (date_to : option date) : date :=
  match date_to with
  | Some d => d
  | None => PyDate.add_days date_from 6
  end.

(** The search domain of [get_weekly_summary]. *)
Definition weekly_domain (user_id : Z) (date_from date_to : date) (l : Line)
  : bool :=
  (ref_id (line_user_id l) =? user_id)%Z
  && (date_from <=? line_date l)%Z
  && (line_date l <=? date_to)%Z.

(** [get_weekly_summary]; [table] holds the records of the model. *)
Definition get_weekly_summary (env : Env) (table : list Line)
  (user_id : option Z) (date_from date_to : option date) : WeeklySummary :=
  let user_id := default_user_id env user_id in
  let date_from := default_date_from env date_from in
  let date_to := default_date_to date_from date_to in
  let time_logs := search (weekly_domain user_id date_from date_to) table in
  mkWeeklySummary
    (Py.sum (map unit_amount time_logs))
    (len_set (map line_date time_logs))
    (len_set (map ref_id (mapped_task_id time_logs)))
    (map (fun task =>
            let task_logs :=
              filter (fun l => (ref_id (line_task_id l) =? ref_id task)%Z)
                     time_logs in
            mkDetail (ref_name task)
                     (Py.sum (map unit_amount task_logs))
                     (List.length task_logs))
         (mapped_task_id time_logs)).

(** *** The table of time logs under [create], [write] and [unlink] *)

(** One operation on the table: a record is created; the records
    selected by [sel] are written; the records selected by [sel] are
    deleted.  An operation that raises leaves the table as it is and is
    no step. *)
Inductive step : list Line -> list Line -> Prop :=
| step_create env new_id vals record table :
    create env new_id vals = inr record ->
    step table (record :: table)
| step_write env vals sel self' table :
    write env vals (filter sel table) = inr self' ->
    step table (map (fun r => if sel r : bool then assign vals r else r) table)
| step_unlink sel table :
    step table (filter (fun r => negb (sel r)) table).

(** The tables that operations build from the empty one. *)
Inductive reachable : list Line -> Prop :=
| reachable_empty : reachable []
| reachable_step table table' :
    reachable table -> step table table' -> reachable table'.

End TaskTimesheetLine.

(** ** [task.subtask] *)

Module TaskSubtask.

Definition set_is_done (v : bool) (s : Subtask) : Subtask :=
  mkSubtask (subtask_id s) (subtask_name s) (parent_task_id s) v (deadline s).

(** Modelled from the spec: the toggle of [is_done] on a subtask.  The
    model [task.subtask] is declared outside the two files.  By sections
    3, 4.3 and 8 of the specification the subtask [sid] of the task changes
    its flag and the progress of the parent task is recomputed by the
    progress resolver, [update_progress_from_subtasks]. *)
Definition write_is_done (sid : Z) (task : Task) : Task :=
  set_subtask_ids
    (map (fun s => if (subtask_id s =? sid)%Z
                   then set_is_done (negb (is_done s)) s else s)
         (subtask_ids task))
    task.

Definition toggle_is_done (sid : Z) (task : Task) : list Task :=
  TaskManagement.update_progress_from_subtasks [write_is_done sid task].

End TaskSubtask.

(** ** The hours of a task on binary64 numbers *)

Module Binary64.

Import PrimFloat.

#[local] Open Scope float_scope.

(** Truth value of a float: every number but zero is true. *)
Definition truthy (x : float) : bool := negb (x =? 0).

(** [x or y] on floats. *)
Definition or_else (x y : float) : float := if truthy x then x else y.

(** The builtin [min(a, b)]: the first argument unless the second is
    strictly smaller. *)
Definition min (a b : float) : float := if b <? a then b else a.

(** The exceptions of [int] on a float. *)
Inductive IntError := ValueError | OverflowError.

(** The builtin [int] on a float: the integer towards zero; it raises on
    a NaN and on an infinity. *)
Definition int (x : float) : IntError + Z :=
  match FloatOps.Prim2SF x with
  | SpecFloat.S754_zero _ => inr 0%Z
  | SpecFloat.S754_infinity _ => inl OverflowError
  | SpecFloat.S754_nan => inl ValueError
  | SpecFloat.S754_finite s m e =>
      let n := Z.shiftl (Zpos m) e in
      inr (if s then (- n)%Z else n)
  end.

(** The fields of a task that [_compute_remaining_hours] reads and
    writes. *)
Record TaskHours := mkTaskHours {
  progress : float;
  planned_hours : float;
  effective_hours : float;
  remaining_hours : float;
  subtask_ids : list Subtask
}.

Definition set_remaining_hours (v : float) (t : TaskHours) : TaskHours :=
  mkTaskHours (progress t) (planned_hours t) (effective_hours t) v
              (subtask_ids t).

Definition set_progress (v : float) (t : TaskHours) : TaskHours :=
  mkTaskHours v (planned_hours t) (effective_hours t) (remaining_hours t)
              (subtask_ids t).

(** The second definition of [_compute_remaining_hours], the one bound
    to the class: body of the loop. *)
Definition _compute_remaining_hours_1 (task : TaskHours) : TaskHours :=
  let task :=
    set_remaining_hours
      (or_else (planned_hours task) 0 - effective_hours task) task in
  if (0 <? planned_hours task) && negb (nonempty_set (subtask_ids task))
  then
    let hours_progress :=
      min 100 (effective_hours task / planned_hours task * 100) in
    if 5 <? abs (progress task - hours_progress)
    then set_progress hours_progress task
    else task
  else task.

Definition _compute_remaining_hours (self : list TaskHours)
  : list TaskHours :=
  map _compute_remaining_hours_1 self.

End Binary64.

(** ** Notions used in the statements *)

(** ['k' in vals] *)
Definition has {A} (o : option A) : bool :=
  match o with Some _ => true | None => false end.

(** The duration of a record is within the day. *)
Definition valid_duration (r : Line) : Prop :=
  0 < unit_amount r /\ unit_amount r <= 24 # 1.

(** A method raises. *)
Definition raises (o : TaskTimesheetLine.Outcome) : Prop :=
  exists e, o = TaskTimesheetLine.Raised e.

(** The order of [_order]: later dates first, and for equal dates larger
    identifiers first. *)
Definition in_order (a b : Line) : Prop :=
  (line_date b < line_date a)%Z
  \/ (line_date a = line_date b /\ (line_id b <= line_id a)%Z).

(** The sum of a list of numbers, from its right end. *)
Definition sumQ (l : list Q) : Q := fold_right Qplus 0 l.





(** ** Sample records *)

Module Sample.

Definition alice : Ref := mkRef 7 "Alice".
Definition bob : Ref := mkRef 8 "Bob".

Definition in_progress : Stage := mkStage "In Progress" "open" false.

Definition log (id : Z) (task : Ref) (d : date) (hours : Q) : Line :=
  mkLine id "General work" task None alice d hours.

(** A task planned for 10 hours, without subtasks, at 40 percent in the
    stage "In Progress", with one time log of 5 hours. *)
Definition task_5h : Task :=
  mkTask 1 "Report" (Some in_progress) Knormal None (40 # 1) (10 # 1) 0 0
         [log 1 (mkRef 1 "Report") 738960 (5 # 1)] [] false.

(** The same task at 50 percent, after a second log of 0.4 hours. *)
Definition task_5h24 : Task :=
  mkTask 1 "Report" (Some in_progress) Knormal None (50 # 1) (10 # 1) 0 0
         [log 1 (mkRef 1 "Report") 738960 (5 # 1);
          log 2 (mkRef 1 "Report") 738960 (2 # 5)] [] false.

(** A task with one subtask, 10 planned hours and 9 hours spent. *)
Definition task_with_subtask : Task :=
  mkTask 2 "Audit" (Some in_progress) Knormal None (0 # 1) (10 # 1) 0 0
         [log 3 (mkRef 2 "Audit") 738960 (9 # 1)]
         [mkSubtask 1 "Collect" 2 false None] false.

(** A task planned for 2 hours on which 5 hours were spent. *)
Definition task_over_budget : Task :=
  mkTask 3 "Fix" (Some in_progress) Knormal None (40 # 1) (2 # 1) (5 # 1) 0
         [] [mkSubtask 2 "Patch" 3 true None] false.

(** A task without planned hours on which 5 hours were spent. *)
Definition task_unplanned : Task :=
  mkTask 4 "Support" (Some in_progress) Knormal None (40 # 1) 0 (5 # 1) (- (5 # 1))
         [] [] false.

(** A stage named "Done" that is not of a closing type. *)
Definition done_but_open : Stage := mkStage "Done" "open" false.

Definition done : Stage := mkStage "Done" "done" true.

(** A task that was just moved to a stage. *)
Definition task_moved_to (stage : Stage) : Task :=
  mkTask 5 "Review draft" (Some stage) Knormal None (40 # 1) (10 # 1) 0 (10 # 1)
         [] [] false.

(** A subtask of task 1 due on 2024-03-15. *)
Definition chapter : Subtask := mkSubtask 11 "Write chapter" 1 false (Some 738960%Z).

(** A time log under edition: no description yet, a date entered by
    hand, and the subtask just selected. *)
Definition edited_line : Line :=
  mkLine 0 EmptyString (mkRef 1 "Report") (Some chapter) alice 738000 (1 # 1).

(** A task with three subtasks, one of them done, at 40 percent. *)
Definition task_three_subtasks : Task :=
  mkTask 6 "Release" (Some in_progress) Knormal None (40 # 1) (10 # 1) 0 0 []
         [mkSubtask 21 "Build" 6 true None;
          mkSubtask 22 "Test" 6 false None;
          mkSubtask 23 "Ship" 6 false None] false.

(** The session of Alice on 2024-03-25. *)
Definition env : TaskTimesheetLine.Env :=
  TaskTimesheetLine.mkEnv alice false 738970 738970 738970.

(** Values for a new time log of [hours] hours on the task "Report". *)
Definition vals_hours (hours : Q) : TaskTimesheetLine.Vals :=
  TaskTimesheetLine.mkVals None (Some (mkRef 1 "Report")) None None
                           (Some 738965%Z) (Some hours).

(** An update that selects the subtask [chapter], due on 2024-03-15, and
    writes nothing else. *)
Definition vals_select_chapter : TaskTimesheetLine.Vals :=
  TaskTimesheetLine.mkVals None None (Some (Some chapter)) None None None.


(** A time log dated after the deadline of its subtask. *)
Definition late_line : Line :=
  mkLine 12 "Write chapter" (mkRef 1 "Report") (Some chapter) alice 738961
         (1 # 1).

(** The session of Alice on Thursday 2024-03-28. *)
Definition env_thursday : TaskTimesheetLine.Env :=
  TaskTimesheetLine.mkEnv alice false 738973 738973 738973.

(** Time logs of the week of Monday 2024-03-25, of the week before, and
    of another user. *)
Definition week_table : list Line :=
  [ log 1 (mkRef 1 "Report") 738970 (2 # 1);
    log 2 (mkRef 1 "Report") 738971 (3 # 2);
    log 3 (mkRef 2 "Audit") 738971 (4 # 1);
    log 4 (mkRef 1 "Report") 738960 (1 # 1);
    mkLine 5 "General work" (mkRef 2 "Audit") None bob 738970 (8 # 1) ].

End Sample.

Module SampleHours.

Import PrimFloat.

#[local] Open Scope float_scope.

#[local] Set Warnings "-inexact-float".






End SampleHours.

(** ** Further methods of [TaskManagement] *)

Module TaskManagementMore.

(** The two counters that [_compute_subtask_count] assigns. *)
Record SubtaskCount := mkSubtaskCount {
  subtask_count : Z;
  subtask_completed_count : Z
}.

(** [_compute_subtask_count], body of the loop. *)
Definition _compute_subtask_count_1 (task : Task) : SubtaskCount :=
  mkSubtaskCount
    (Z.of_nat (List.length (subtask_ids task)))
    (Z.of_nat (List.length (filtered_is_done (subtask_ids task)))).

Definition _compute_subtask_count (self : list Task) : list SubtaskCount :=
  map _compute_subtask_count_1 self.

(** The dates of a task that the date-range methods read; an empty
    [Datetime] field is [None]. *)
Record TaskDates := mkTaskDates {
  date_start : option datetime;
  date_deadline : option datetime
}.

(** [_check_date_range] *)
Fixpoint _check_date_range (self : list TaskDates)
  : TaskTimesheetLine.Outcome :=
  match self with
  | [] => TaskTimesheetLine.Returned None
  | task :: rest =>
      match date_start task, date_deadline task with
      | Some start, Some due =>
          if (due <? start)%Z then
            TaskTimesheetLine.Raised
              (TaskTimesheetLine.ValidationError
                 "Due Date/Delivery Date cannot be set before Start Date/Kickoff Date")
          else _check_date_range rest
      | _, _ => _check_date_range rest
      end
  end.

(** [_onchange_date_range] on the record of the form. *)
Definition _onchange_date_range (self : TaskDates)
  : option TaskTimesheetLine.Warning :=
  match date_start self, date_deadline self with
  | Some start, Some due =>
      if (due <? start)%Z then
        Some (TaskTimesheetLine.mkWarning "Invalid Date Range"
                "Due Date/Delivery Date cannot be before Start Date/Kickoff Date")
      else None
  | _, _ => None
  end.

(** [task.team]: the model is declared outside the two files; these are
    the fields the code reads. *)
Record Team := mkTeam {
  team_ref_id : Z;
  manager_id : option Ref;
  member_ids : list Ref
}.

(** The assignment of a task: the fields that the handlers of
    [task_type], [team_id] and [user_id] read and write.  An empty
    selection is [None]. *)
Record Assignment := mkAssignment {
  task_type : option string;
  user_id : option Ref;
  team_id : option Team;
  date_assign : option datetime
}.

(** [task_type == s] *)
Definition task_type_is (a : Assignment) (s : string) : bool :=
  match task_type a with
  | Some t => (t =? s)%string
  | None => false
  end.

(** [_onchange_user_id]; [now] is the value of [fields.Datetime.now()]. *)
Definition _onchange_user_id (now : datetime) (self : Assignment) : Assignment :=
  match user_id self with
  | Some _ =>
      mkAssignment (task_type self) (user_id self) (team_id self) (Some now)
  | None => self
  end.

(** [_onchange_task_type]; [env_user] is [self.env.user]. *)
Definition _onchange_task_type (env_user : Ref) (self : Assignment)
  : Assignment :=
  if task_type_is self "individual" then
    let self :=
      mkAssignment (task_type self) (user_id self) None (date_assign self) in
    match user_id self with
    | Some _ => self
    | None =>
        mkAssignment (task_type self) (Some env_user) (team_id self)
                     (date_assign self)
    end
  else if task_type_is self "team" then
    mkAssignment (task_type self) None (team_id self) (date_assign self)
  else self.

(** [_onchange_team_id] *)
Definition _onchange_team_id (self : Assignment) : Assignment :=
  match team_id self with
  | Some _ =>
      if negb (task_type_is self "team")
      then mkAssignment (Some "team"%string) (user_id self) (team_id self)
                        (date_assign self)
      else self
  | None => self
  end.

(** [_compute_is_user_team_task], body of the loop; records of a model
    are equal when their identifiers are. *)
Definition _compute_is_user_team_task_1 (current_user : Ref) (task : Assignment)
  : bool :=
  match team_id task with
  | Some t =>
      match manager_id t with
      | Some m => (ref_id m =? ref_id current_user)%Z
      | None => false
      end
      || existsb (fun u => (ref_id u =? ref_id current_user)%Z) (member_ids t)
  | None => false
  end.

(** The dictionary [vals] of [create] and [write] on a task, for the
    keys that their heads read and write; [None] for a key that is
    absent.  A [user_id] or [stage_id] of [False] is the identifier 0. *)
Record TaskVals := mkTaskVals {
  tv_task_type : option string;
  tv_user_id : option Z;
  tv_date_assign : option datetime;
  tv_stage_id : option Z;
  tv_progress : option Q
}.

(** What the heads of [create] and [write] read of [self.env]: the
    identifier of the current user, the current time, and the stages of
    the registry with their identifiers, in the order of a search. *)
Record TaskEnv := mkTaskEnv {
  env_uid : Z;
  env_now : datetime;
  env_stages : list (Z * Stage)
}.

(** [vals.get(k)] is true. *)
Definition truthy_id (o : option Z) : bool :=
  match o with
  | Some i => negb (i =? 0)%Z
  | None => false
  end.

(** [self.env['task.stage'].search([('name', '=', 'To-Do')], limit=1)] *)
Definition search_to_do (env : TaskEnv) : option (Z * Stage) :=
  find (fun s => (stage_name (snd s) =? "To-Do")%string) (env_stages env).

(** The head of [create]: the values handed to [super().create]. *)
Definition create_vals (env : TaskEnv) (vals : TaskVals) : TaskVals :=
  let vals :=
    match tv_task_type vals with
    | Some t =>
        if (t =? "individual")%string && negb (truthy_id (tv_user_id vals))
        then mkTaskVals (tv_task_type vals) (Some (env_uid env))
                        (tv_date_assign vals) (tv_stage_id vals)
                        (tv_progress vals)
        else vals
    | None => vals
    end in
  let vals :=
    if truthy_id (tv_user_id vals)
    then mkTaskVals (tv_task_type vals) (tv_user_id vals)
                    (Some (env_now env)) (tv_stage_id vals) (tv_progress vals)
    else vals in
  if negb (truthy_id (tv_stage_id vals)) then
    match search_to_do env with
    | Some default_stage =>
        mkTaskVals (tv_task_type vals) (tv_user_id vals) (tv_date_assign vals)
                   (Some (fst default_stage)) (Some 0)
    | None => vals
    end
  else vals.

(** The head of [write]: the values handed to [super().write]. *)
Definition write_vals (env : TaskEnv) (vals : TaskVals) : TaskVals :=
  match tv_user_id vals with
  | Some _ =>
      mkTaskVals (tv_task_type vals) (tv_user_id vals) (Some (env_now env))
                 (tv_stage_id vals) (tv_progress vals)
  | None => vals
  end.

End TaskManagementMore.

(** ** Further methods of [TaskTimesheetLine] *)

Module TaskTimesheetLineMore.

Import TaskTimesheetLine.

(** [str] on an integer. *)
Definition str (z : Z) : string := NilZero.string_of_int (Z.to_int z).

(** The format [02d]: at least two characters, zeros on the left. *)
Definition format_02d (z : Z) : string :=
  if (0 <=? z)%Z && (z <? 10)%Z then ("0" ++ str z)%string else str z.

Section HoursDisplay.

Import PrimFloat.

(** [_compute_hours_display], body of the loop: the text assigned to
    [hours_display] for the binary64 number [unit_amount] of the record;
    the product and [int] are those of Python, and the method raises when
    [int] does. *)
Definition _compute_hours_display_1 (unit_amount : float)
  : Binary64.IntError + string :=
  match Binary64.int (unit_amount * 60)%float with
  | inl e => inl e
  | inr total_minutes =>
      let hours := (total_minutes / 60)%Z in
      let minutes := (total_minutes mod 60)%Z in
      inr (format_02d hours ++ ":" ++ format_02d minutes)%string
  end.

End HoursDisplay.

(** The keys of the selection [quick_time]. *)
Inductive QuickTime :=
| quick_0_25 | quick_0_5 | quick_1 | quick_1_5
| quick_2 | quick_3 | quick_4 | quick_8.

(** [float(key)] for the keys ['0.25'], ['0.5'], ['1'], ['1.5'], ['2'],
    ['3'], ['4'] and ['8']. *)
Definition float_of_quick_time (k : QuickTime) : Q :=
  match k with
  | quick_0_25 => 1 # 4
  | quick_0_5 => 1 # 2
  | quick_1 => 1
  | quick_1_5 => 3 # 2
  | quick_2 => 2 # 1
  | quick_3 => 3 # 1
  | quick_4 => 4 # 1
  | quick_8 => 8 # 1
  end.

Definition set_unit_amount (v : Q) (r : Line) : Line :=
  mkLine (line_id r) (line_name r) (line_task_id r) (line_subtask_id r)
         (line_user_id r) (line_date r) v.

(** [_onchange_quick_time]; [quick_time] is the field of the form, which
    [Line] does not carry, [None] when nothing is selected. *)
Definition _onchange_quick_time (quick_time : option QuickTime) (self : Line)
  : Line :=
  match quick_time with
  | Some k => set_unit_amount (float_of_quick_time k) self
  | None => self
  end.

(** [_onchange_time_range]; [time_start] and [time_end] are the fields of
    the form, which [Line] does not carry.  The duration is the exact
    difference; the binary64 difference of Python has the same sign and
    is the nearest binary64 number. *)
Definition _onchange_time_range (time_start time_end : Q) (self : Line)
  : Exception + Line :=
  if Py.truthy time_start && Py.truthy time_end then
    if Py.ltb time_end time_start
    then inl (ValidationError "End time must be after start time.")
    else
      let duration := time_end - time_start in
      inr (set_unit_amount duration self)
  else inr self.

(** [_onchange_date]: the records come with the date that the form
    holds, [None] when the field was emptied. *)
Fixpoint _onchange_date (env : Env) (self : list (option date * Line))
  : option Warning :=
  match self with
  | [] => None
  | (None, _) :: rest => _onchange_date env rest
  | (Some record_date, record) :: rest =>
      match subtask_deadline record with
      | Some d =>
          if PyDate.gtb record_date d then
            Some (mkWarning "Warning"
                    ("The selected date is after the subtask deadline ("
                     ++ PyDate.strftime_Ymd d ++ ")"))
          else _onchange_date env rest
      | None =>
          if PyDate.gtb record_date (datetime_now_date env) then
            Some (mkWarning "Warning"
                    "You are selecting a future date. Time logs should typically be for past work.")
          else _onchange_date env rest
      end
  end.

End TaskTimesheetLineMore.

(** ** Further notions used in the statements *)

(** The key of the group of a time log in the summary of a task: the
    identifier of its subtask, 0 without subtask. *)
Definition timesheet_key (l : Line) : Z :=
  match line_subtask_id l with
  | Some s => subtask_id s
  | None => 0%Z
  end.

(** The name of the group of a time log. *)
Definition timesheet_group_name (l : Line) : string :=
  match line_subtask_id l with
  | Some s => subtask_name s
  | None => "Other Work"%string
  end.

(** The entry that a time log leaves in its group. *)
Definition timesheet_entry (l : Line) : TaskManagement.TimeEntry :=
  TaskManagement.mkTimeEntry (line_date l) (ref_name (line_user_id l))
                             (unit_amount l).

(** A group, or none yet, after it has taken one more time log. *)
Definition absorb_timesheet (group : option TaskManagement.SubtaskTime)
  (l : Line) : option TaskManagement.SubtaskTime :=
  let g :=
    match group with
    | Some g => g
    | None => TaskManagement.mkSubtaskTime (timesheet_group_name l) 0 []
    end in
  Some (TaskManagement.mkSubtaskTime
          (TaskManagement.st_name g)
          (TaskManagement.st_total_hours g + unit_amount l)
          (TaskManagement.st_entries g ++ [timesheet_entry l])).

(** The number of entries of the groups of a dictionary. *)
Definition dict_entries (d : TaskManagement.dict TaskManagement.SubtaskTime)
  : nat :=
  list_sum (map (fun kv => List.length (TaskManagement.st_entries (snd kv))) d).

(** The deadline of a task is before its start. *)
Definition inverted_range (t : TaskManagementMore.TaskDates) : Prop :=
  exists start due,
    TaskManagementMore.date_start t = Some start
    /\ TaskManagementMore.date_deadline t = Some due
    /\ (due < start)%Z.

(** The progress is a percentage. *)
Definition percentage (p : Q) : Prop := 0 <= p /\ p <= 100 # 1.

(** The form shows the records with the dates they hold. *)
Definition with_dates (self : list Line) : list (option date * Line) :=
  map (fun r => (Some (line_date r), r)) self.

(** The date of a record is past the limit that the date check and the
    date warning apply to it. *)
Definition date_past_limit (env : TaskTimesheetLine.Env) (r : Line) : Prop :=
  match TaskTimesheetLine.subtask_deadline r with
  | Some d => (d < line_date r)%Z
  | None => (TaskTimesheetLine.datetime_now_date env < line_date r)%Z
  end.

(** ** More sample records *)

Module SampleMore.

(** The task "Report" with its first time log, and with both, after the
    hours spent were recomputed. *)
Definition report_5h : Task :=
  TaskManagement._compute_effective_hours_1 Sample.task_5h.

(** A registry of two stages. *)
Definition task_env : TaskManagementMore.TaskEnv :=
  TaskManagementMore.mkTaskEnv 7 1700000000
    [(3%Z, Sample.in_progress); (1%Z, mkStage "To-Do" "open" false)].

(** Values for a new task with a progress of 50 and no stage. *)
Definition vals_half_done : TaskManagementMore.TaskVals :=
  TaskManagementMore.mkTaskVals (Some "individual"%string) None None None
                                (Some (50 # 1)).

(** A time log of one hour and a half, dated within its limit. *)
Definition timely_line : Line :=
  mkLine 13 "Write chapter" (mkRef 1 "Report") (Some Sample.chapter)
         Sample.alice 738959 (3 # 2).

(** A time log of 30 hours. *)
Definition long_line : Line :=
  mkLine 14 "General work" (mkRef 1 "Report") None Sample.alice 738965 (30 # 1).

(** The session of Alice with the warning on long durations switched
    off. *)
Definition env_skip : TaskTimesheetLine.Env :=
  TaskTimesheetLine.mkEnv Sample.alice true 738970 738970 738970.

End SampleMore.

(** * Properties *)

(** ** Python values and rationals *)

Lemma ltb_lt (x y : Q) : Py.ltb x y = true <-> x < y.
Proof.
  unfold Py.ltb. rewrite negb_true_iff, <- not_true_iff_false, Qle_bool_iff.
  split; [apply Qnot_le_lt | apply Qlt_not_le].
Qed.

Lemma ltb_ge (x y : Q) : Py.ltb x y = false <-> y <= x.
Proof.
  unfold Py.ltb. rewrite negb_false_iff. apply Qle_bool_iff.
Qed.

Lemma ltb_nlt (x y : Q) : Py.ltb x y = false <-> ~ x < y.
Proof.
  rewrite ltb_ge. split; [apply Qle_not_lt | apply Qnot_lt_le].
Qed.

Lemma leb_le (x y : Q) : Py.leb x y = true <-> x <= y.
Proof. apply Qle_bool_iff. Qed.

Lemma leb_gt (x y : Q) : Py.leb x y = false <-> y < x.
Proof.
  unfold Py.leb. rewrite <- not_true_iff_false, Qle_bool_iff.
  split; [apply Qnot_le_lt | apply Qlt_not_le].
Qed.

(** The builtin [min] is the minimum of the rationals. *)
Lemma min_Qmin (a b : Q) : Py.min a b = Qmin a b.
Proof.
  unfold Py.min, Qmin, GenericMinMax.gmin.
  destruct (Py.ltb b a) eqn:E.
  - apply ltb_lt in E. apply Qgt_alt in E. now rewrite E.
  - apply ltb_ge in E.
    destruct (a ?= b) eqn:C; try reflexivity.
    apply Qgt_alt in C. apply Qle_not_lt in E. contradiction.
Qed.

(** The builtin [abs] is the absolute value of the rationals. *)
Lemma abs_Qabs (x : Q) : Py.abs x = Qabs x.
Proof.
  unfold Py.abs. destruct (Py.ltb x 0) eqn:E.
  - apply ltb_lt in E. destruct x as [n d]. unfold Qlt in E. simpl in E.
    unfold Qopp, Qabs. simpl. f_equal. lia.
  - apply ltb_ge in E. destruct x as [n d]. unfold Qle in E. simpl in E.
    unfold Qabs. f_equal. lia.
Qed.

(** [x or 0.0] is [x]. *)
Lemma or_else_zero (x : Q) : Py.or_else x 0 == x.
Proof.
  unfold Py.or_else, Py.truthy. destruct (Qeq_bool x 0) eqn:E; simpl.
  - apply Qeq_bool_iff in E. now symmetry.
  - reflexivity.
Qed.

Lemma nonempty_set_true {A} (l : list A) : nonempty_set l = true <-> l <> [].
Proof. destruct l; simpl; split; congruence. Qed.

Lemma nonempty_set_false {A} (l : list A) : nonempty_set l = false <-> l = [].
Proof. destruct l; simpl; split; congruence. Qed.

(** A loop that rewrites every record of a recordset relates each record
    to its image. *)
Lemma Forall2_map_self {A B} (P : A -> B -> Prop) (f : A -> B) (l : list A) :
  (forall x, P x (f x)) -> Forall2 P l (map f l).
Proof.
  intros H. induction l; simpl; constructor; auto.
Qed.

(** ** Remaining hours and the adjustment of progress by hours *)

Section RemainingHours.

Import TaskManagement.

Variable task : Task.

Let hours_progress : Q :=
  Qmin (100 # 1) (effective_hours task / planned_hours task * (100 # 1)).

Lemma remaining_hours_second :
  remaining_hours (_compute_remaining_hours_1 task)
  = Py.or_else (planned_hours task) 0 - effective_hours task.
Proof.
  unfold _compute_remaining_hours_1.
  repeat match goal with |- context [if ?c then _ else _] => destruct c end;
    reflexivity.
Qed.

Lemma progress_with_subtasks :
  subtask_ids task <> [] ->
  progress (_compute_remaining_hours_1 task) = progress task.
Proof.
  intros H. apply nonempty_set_true in H.
  unfold _compute_remaining_hours_1. simpl. rewrite H.
  rewrite andb_false_r. reflexivity.
Qed.

Lemma progress_without_subtasks :
  0 < planned_hours task -> subtask_ids task = [] ->
  (5 # 1 < Qabs (progress task - hours_progress) ->
   progress (_compute_remaining_hours_1 task) = hours_progress)
  /\ (~ 5 # 1 < Qabs (progress task - hours_progress) ->
      progress (_compute_remaining_hours_1 task) = progress task).
Proof.
  intros Hp Hs. apply ltb_lt in Hp. apply nonempty_set_false in Hs.
  unfold _compute_remaining_hours_1. simpl. rewrite Hp, Hs. simpl.
  rewrite min_Qmin, abs_Qabs. fold hours_progress.
  destruct (Py.ltb (5 # 1) (Qabs (progress task - hours_progress))) eqn:E.
  - split; [reflexivity|]. intros H. apply ltb_lt in E. contradiction.
  - split; [|reflexivity]. intros H. apply ltb_nlt in E. contradiction.
Qed.

End RemainingHours.

Section HoursProgress.

Import PrimFloat.

#[local] Open Scope float_scope.


#[local] Set Warnings "-inexact-float".


End HoursProgress.

(** C3: after a recomputation of a recordset every task has
    [remaining_hours == planned_hours - effective_hours], the plain
    difference, and the two definitions of [_compute_remaining_hours] in
    the class assign the same value. *)
Theorem remaining_hours_is_difference (self : list Task) :
  Forall2
    (fun task task' =>
       remaining_hours task' == planned_hours task - effective_hours task)
    self (TaskManagement._compute_remaining_hours self)
  /\ Forall2
       (fun task task' =>
          remaining_hours task' == planned_hours task - effective_hours task)
       self (TaskManagement._compute_remaining_hours_first self)
  /\ map remaining_hours (TaskManagement._compute_remaining_hours self)
     = map remaining_hours (TaskManagement._compute_remaining_hours_first self).
Proof.
  split; [|split].
  - apply Forall2_map_self. intros task.
    rewrite remaining_hours_second, or_else_zero. reflexivity.
  - apply Forall2_map_self. intros task. simpl.
    rewrite or_else_zero. reflexivity.
  - unfold TaskManagement._compute_remaining_hours,
      TaskManagement._compute_remaining_hours_first.
    rewrite !map_map. apply map_ext. intros task.
    apply remaining_hours_second.
Qed.

(** The difference is not clamped: 2 planned hours and 5 hours spent
    leave -3 hours. *)
Example remaining_hours_negative :
  map remaining_hours
      (TaskManagement._compute_remaining_hours [Sample.task_over_budget])
  = [- (3 # 1)].
Proof. reflexivity. Qed.

(** ** The time-tracking summary *)

Section TimeTrackingSummary.

Import TaskManagement.

(** C9, as stated, fails: a task without planned hours on which 5 hours
    were spent has [effective_hours > planned_hours] and is not reported
    over budget. *)
Lemma over_budget_unplanned_counterexample :
  ~ (is_over_budget
       (TaskManagement.get_time_tracking_summary Sample.task_unplanned) = true
     <-> planned_hours Sample.task_unplanned
         < effective_hours Sample.task_unplanned).
Proof.
  intros [_ H]. assert (E : 0 < 5 # 1) by reflexivity.
  specialize (H E). discriminate H.
Qed.

(** C9, amended: [is_over_budget] is true if and only if [planned_hours]
    is not zero and [effective_hours > planned_hours]. *)
Theorem over_budget_iff (task : Task) :
  is_over_budget (TaskManagement.get_time_tracking_summary task) = true
  <-> ~ planned_hours task == 0
      /\ planned_hours task < effective_hours task.
Proof.
  unfold TaskManagement.get_time_tracking_summary. simpl.
  unfold Py.truthy. destruct (Qeq_bool (planned_hours task) 0) eqn:E; simpl.
  - apply Qeq_bool_iff in E. split; [discriminate|]. intros [H _]. contradiction.
  - rewrite ltb_lt. split.
    + intros H. split; [|exact H]. intros H0. apply Qeq_bool_iff in H0. congruence.
    + intros [_ H]. exact H.
Qed.

(** The other fields of the summary copy the stored fields of the task. *)
Lemma summary_copies_fields (task : Task) :
  let s := TaskManagement.get_time_tracking_summary task in
  total_planned s = planned_hours task
  /\ total_spent s = effective_hours task
  /\ remaining s = remaining_hours task
  /\ progress_percent s = progress task.
Proof. repeat split. Qed.

End TimeTrackingSummary.

(** ** The stage change *)

Section StageChange.

Import TaskManagement.

Variable now : datetime.

Lemma stage_type_closed_iff (stage : Stage) :
  stage_type_closed stage = true
  <-> stage_type stage = "done"%string \/ stage_type stage = "cancelled"%string.
Proof.
  unfold stage_type_closed. rewrite orb_true_iff, !String.eqb_eq. reflexivity.
Qed.

Lemma onchange_is_closed (task : Task) (stage : Stage) :
  stage_id task = Some stage ->
  is_closed (_onchange_stage_id now task) = stage_type_closed stage.
Proof.
  intros H. unfold _onchange_stage_id. rewrite H.
  destruct (stage_type_closed stage); reflexivity.
Qed.

(** C4, as stated, fails: a stage named "Done" whose type is not a
    closing one gives [kanban_state] done and progress 100 and leaves the
    task open. *)
Lemma done_stage_not_closed_counterexample :
  let task := Sample.task_moved_to Sample.done_but_open in
  stage_id task = Some Sample.done_but_open
  /\ stage_name Sample.done_but_open = "Done"%string
  /\ is_closed (_onchange_stage_id 1700000000 task) <> true.
Proof. repeat split. discriminate. Qed.

(** C4, amended: on a change to the stage named "Done" the handler sets
    [kanban_state] to done, [progress] to 100 and [date_end] to the
    current time; on "Cancelled" it sets [kanban_state] to blocked and
    [progress] to 0; on "To-Do", "In Progress" and "Review" it sets
    [kanban_state] to normal; [is_closed] becomes true if and only if the
    type of the new stage is done or cancelled, whatever the name of the
    stage, and false otherwise. *)
Theorem stage_change_sync (task : Task) (stage : Stage) :
  stage_id task = Some stage ->
  let task' := _onchange_stage_id now task in
  (stage_name stage = "Done"%string ->
   kanban_state task' = Kdone /\ progress task' = 100 # 1
   /\ date_end task' = Some now)
  /\ (stage_name stage = "Cancelled"%string ->
      kanban_state task' = Kblocked /\ progress task' = 0)
  /\ (stage_name stage = "To-Do"%string
      \/ stage_name stage = "In Progress"%string
      \/ stage_name stage = "Review"%string ->
      kanban_state task' = Knormal)
  /\ (is_closed task' = true
      <-> stage_type stage = "done"%string
          \/ stage_type stage = "cancelled"%string)
  /\ (is_closed task' = false
      <-> ~ (stage_type stage = "done"%string
             \/ stage_type stage = "cancelled"%string)).
Proof.
  intros H task'. subst task'.
  split; [|split; [|split; [|split; [|split]]]].
  - intros Hn. unfold _onchange_stage_id. rewrite H, Hn. simpl.
    destruct (stage_type_closed stage); repeat split.
  - intros Hn. unfold _onchange_stage_id. rewrite H, Hn. simpl.
    destruct (stage_type_closed stage); repeat split.
  - intros [Hn | [Hn | Hn]]; unfold _onchange_stage_id; rewrite H, Hn; simpl;
      destruct (stage_type_closed stage); reflexivity.
  - rewrite (onchange_is_closed _ _ H). apply stage_type_closed_iff.
  - rewrite (onchange_is_closed _ _ H), <- stage_type_closed_iff.
    intros E. rewrite E. discriminate.
  - rewrite (onchange_is_closed _ _ H), <- stage_type_closed_iff.
    apply not_true_is_false.
Qed.

(** [_compute_is_closed] copies the flag of the stage record. *)
Lemma compute_is_closed_flag (self : list Task) :
  Forall2
    (fun task task' =>
       is_closed task'
       = match stage_id task with
         | Some stage => stage_is_closed stage
         | None => false
         end)
    self (_compute_is_closed self).
Proof. apply Forall2_map_self. reflexivity. Qed.

End StageChange.

(** A move to the stage "Done" of type done at time 1700000000. *)
Lemma stage_change_sync_witness :
  let task' :=
    TaskManagement._onchange_stage_id 1700000000
      (Sample.task_moved_to Sample.done) in
  kanban_state task' = Kdone /\ progress task' = 100 # 1
  /\ date_end task' = Some 1700000000%Z /\ is_closed task' = true.
Proof.
  pose proof
    (stage_change_sync 1700000000 (Sample.task_moved_to Sample.done)
       Sample.done eq_refl) as [Hdone [_ [_ [Hclosed _]]]].
  destruct (Hdone eq_refl) as [Hk [Hp Hd]].
  intros task'.
  split; [exact Hk | split; [exact Hp | split; [exact Hd |]]].
  apply Hclosed. left. reflexivity.
Defined.

(** ** Progress from subtasks or from the stage *)

Section ProgressResolver.

Import TaskManagement.

Lemma len_pos {A} (l : list A) : l <> [] -> 0 < len l.
Proof.
  destruct l as [|x l]; [congruence|]. intros _.
  unfold len, Qlt. simpl. lia.
Qed.

Lemma update_keeps_subtasks (task : Task) :
  subtask_ids (update_progress_from_subtasks_1 task) = subtask_ids task.
Proof.
  unfold update_progress_from_subtasks_1.
  repeat match goal with |- context [if ?c then _ else _] => destruct c end;
    reflexivity.
Qed.

(** With subtasks the progress is the share of the subtasks done. *)
Lemma update_with_subtasks (task : Task) :
  subtask_ids task <> [] ->
  progress (update_progress_from_subtasks_1 task)
  = len (filtered_is_done (subtask_ids task)) / len (subtask_ids task)
    * (100 # 1).
Proof.
  intros H. unfold update_progress_from_subtasks_1.
  rewrite (proj2 (nonempty_set_true _) H).
  rewrite (proj2 (ltb_lt _ _) (len_pos _ H)). reflexivity.
Qed.

Lemma stage_name_is_true (task : Task) (stage : Stage) (s : string) :
  stage_id task = Some stage ->
  stage_name_is task s = true <-> stage_name stage = s.
Proof.
  intros H. unfold stage_name_is. rewrite H. apply String.eqb_eq.
Qed.

Lemma stage_name_is_false (task : Task) (stage : Stage) (s : string) :
  stage_id task = Some stage ->
  stage_name_is task s = false <-> stage_name stage <> s.
Proof.
  intros H. unfold stage_name_is. rewrite H. apply String.eqb_neq.
Qed.

(** Without subtasks the progress follows the name of the stage. *)
Lemma update_without_subtasks (task : Task) (stage : Stage) :
  subtask_ids task = [] -> stage_id task = Some stage ->
  let task' := update_progress_from_subtasks_1 task in
  (stage_name stage = "To-Do"%string -> progress task' = 0)
  /\ (stage_name stage = "In Progress"%string -> progress task' = 40 # 1)
  /\ (stage_name stage = "Review"%string -> progress task' = 70 # 1)
  /\ (stage_name stage = "Done"%string -> progress task' = 100 # 1)
  /\ (stage_name stage = "Cancelled"%string -> progress task' = 0)
  /\ (stage_name stage <> "To-Do"%string ->
      stage_name stage <> "In Progress"%string ->
      stage_name stage <> "Review"%string ->
      stage_name stage <> "Done"%string ->
      stage_name stage <> "Cancelled"%string ->
      task' = task).
Proof.
  intros Hs Hst task'. subst task'. unfold update_progress_from_subtasks_1.
  rewrite (proj2 (nonempty_set_false _) Hs).
  unfold stage_name_is. rewrite Hst.
  repeat split.
  1-5: intros Hn; rewrite Hn; reflexivity.
  intros H1 H2 H3 H4 H5.
  apply String.eqb_neq in H1, H2, H3, H4, H5.
  rewrite H1, H2, H3, H4, H5. reflexivity.
Qed.

Lemma update_without_stage (task : Task) :
  subtask_ids task = [] -> stage_id task = None ->
  update_progress_from_subtasks_1 task = task.
Proof.
  intros Hs Hst. unfold update_progress_from_subtasks_1.
  rewrite (proj2 (nonempty_set_false _) Hs).
  unfold stage_name_is. rewrite Hst. reflexivity.
Qed.

Lemma toggle_is_done_single (sid : Z) (task : Task) :
  TaskSubtask.toggle_is_done sid task
  = [update_progress_from_subtasks_1 (TaskSubtask.write_is_done sid task)].
Proof. reflexivity. Qed.

Lemma write_is_done_subtasks (sid : Z) (task : Task) :
  subtask_ids task <> [] ->
  subtask_ids (TaskSubtask.write_is_done sid task) <> [].
Proof.
  unfold TaskSubtask.write_is_done. simpl.
  destruct (subtask_ids task); [congruence | discriminate].
Qed.

(** C2: [update_progress_from_subtasks] keeps the subtasks of every task
    of the recordset and sets its progress: with at least one subtask,
    [progress == completed / total * 100]; without subtasks, from the
    name of the stage, To-Do 0, In Progress 40, Review 70, Done 100,
    Cancelled 0, and unchanged for any other name or without a stage.
    The toggle of [is_done] on any subtask of a task with subtasks gives
    one task, with the flag written and with
    [progress == completed / total * 100] counted on its subtasks after
    the toggle. *)
Theorem progress_resolution (self : list Task) :
  Forall2
    (fun task task' =>
       subtask_ids task' = subtask_ids task
       /\ (subtask_ids task <> [] ->
           progress task'
           == len (filtered_is_done (subtask_ids task))
              / len (subtask_ids task) * (100 # 1))
       /\ (subtask_ids task = [] ->
           (forall stage,
              stage_id task = Some stage ->
              (stage_name stage = "To-Do"%string -> progress task' = 0)
              /\ (stage_name stage = "In Progress"%string ->
                  progress task' = 40 # 1)
              /\ (stage_name stage = "Review"%string ->
                  progress task' = 70 # 1)
              /\ (stage_name stage = "Done"%string ->
                  progress task' = 100 # 1)
              /\ (stage_name stage = "Cancelled"%string ->
                  progress task' = 0)
              /\ (stage_name stage <> "To-Do"%string ->
                  stage_name stage <> "In Progress"%string ->
                  stage_name stage <> "Review"%string ->
                  stage_name stage <> "Done"%string ->
                  stage_name stage <> "Cancelled"%string ->
                  progress task' = progress task))
           /\ (stage_id task = None -> progress task' = progress task)))
    self (update_progress_from_subtasks self)
  /\ (forall sid task,
        subtask_ids task <> [] ->
        exists task',
          TaskSubtask.toggle_is_done sid task = [task']
          /\ subtask_ids task'
             = subtask_ids (TaskSubtask.write_is_done sid task)
          /\ subtask_ids task' <> []
          /\ progress task'
             == len (filtered_is_done (subtask_ids task'))
                / len (subtask_ids task') * (100 # 1)).
Proof.
  split.
  - apply Forall2_map_self. intros task.
    split; [apply update_keeps_subtasks|]. split.
    + intros H. rewrite update_with_subtasks by exact H. reflexivity.
    + intros H. split.
      * intros stage Hst.
        destruct (update_without_subtasks task stage H Hst)
          as [H1 [H2 [H3 [H4 [H5 H6]]]]].
        repeat (split; [assumption|]).
        intros N1 N2 N3 N4 N5. now rewrite H6.
      * intros Hst. now rewrite update_without_stage.
  - intros sid task H.
    pose proof (write_is_done_subtasks sid task H) as Hne.
    exists (update_progress_from_subtasks_1
              (TaskSubtask.write_is_done sid task)).
    split; [apply toggle_is_done_single|].
    split; [apply update_keeps_subtasks|].
    rewrite update_keeps_subtasks. split; [exact Hne|].
    rewrite update_with_subtasks by exact Hne. reflexivity.
Qed.

End ProgressResolver.

(** A task with three subtasks, one done: the toggle of a second one
    gives two thirds; in a recordset, a task without subtasks in the
    stage "In Progress" gets 40 percent and a task with three subtasks,
    one done, gets a third. *)
Lemma progress_resolution_witness :
  (exists task',
     TaskSubtask.toggle_is_done 22 Sample.task_three_subtasks = [task']
     /\ progress task' == 200 # 3)
  /\ Forall2 (fun p q => p == q)
       (map progress
          (TaskManagement.update_progress_from_subtasks
             [Sample.task_5h24; Sample.task_three_subtasks]))
       [40 # 1; 100 # 3].
Proof.
  destruct (progress_resolution
              [Sample.task_5h24; Sample.task_three_subtasks]) as [H T].
  split.
  - destruct (T 22%Z Sample.task_three_subtasks) as [task' [E [Es [_ Hp]]]];
      [discriminate|].
    exists task'. split; [exact E|].
    rewrite Hp, Es. reflexivity.
  - unfold TaskManagement.update_progress_from_subtasks in *.
    cbn [map] in *.
    apply Forall2_cons_iff in H. destruct H as [[_ [_ H1]] H].
    apply Forall2_cons_iff in H. destruct H as [[_ [H2 _]] _].
    constructor; [|constructor; [|constructor]].
    + destruct (H1 eq_refl) as [Hs _].
      destruct (Hs Sample.in_progress eq_refl) as [_ [H40 _]].
      rewrite H40; reflexivity.
    + rewrite H2 by discriminate. reflexivity.
Defined.

(** ** The selection of a subtask on a time log *)

Section OnchangeSubtask.

Import TaskTimesheetLine.

(** C10: when a subtask with a deadline is selected on an entry under
    edition, the handler replaces the date of the entry by the deadline,
    whatever date was entered, and fills an empty work description with
    the name of the subtask (a description that is not empty is kept). *)
Theorem onchange_subtask_autofill (self : list Line) :
  Forall2
    (fun record record' =>
       forall subtask d,
         line_subtask_id record = Some subtask ->
         deadline subtask = Some d ->
         line_date record' = d
         /\ (line_name record = EmptyString ->
             line_name record' = subtask_name subtask)
         /\ (line_name record <> EmptyString ->
             line_name record' = line_name record))
    self (_onchange_subtask_id self).
Proof.
  apply Forall2_map_self. intros record subtask d Hs Hd.
  unfold _onchange_subtask_id_1. rewrite Hs, Hd. simpl.
  destruct (line_name record) eqn:E; simpl.
  - split; [reflexivity | split; [reflexivity | congruence]].
  - split; [reflexivity | split; [discriminate |]].
    intros _. simpl. congruence.
Qed.

End OnchangeSubtask.

(** An entry dated by hand and without description takes the deadline
    2024-03-15 and the name of the selected subtask. *)
Lemma onchange_subtask_autofill_witness :
  map (fun r => (line_date r, line_name r))
      (TaskTimesheetLine._onchange_subtask_id [Sample.edited_line])
  = [(738960%Z, "Write chapter"%string)].
Proof.
  pose proof (onchange_subtask_autofill [Sample.edited_line]) as H.
  cbn [TaskTimesheetLine._onchange_subtask_id map] in *.
  apply Forall2_cons_iff in H. destruct H as [H _].
  destruct (H Sample.chapter 738960%Z eq_refl eq_refl) as [Hd [Hn _]].
  rewrite Hd, (Hn eq_refl). reflexivity.
Defined.

(** ** The constraints of a time log *)

Section Constraints.

Import TaskTimesheetLine.

Lemma intersects_in (x : string) (a b : list string) :
  In x a -> In x b -> intersects a b = true.
Proof.
  intros Ha Hb. unfold intersects. apply existsb_exists. exists x.
  split; [exact Ha|]. apply existsb_exists. exists x.
  split; [exact Hb | apply String.eqb_refl].
Qed.

(** On [create] both constraints run: [date] and [unit_amount] always
    receive a value. *)
Lemma validate_on_create (env : Env) (vals : Vals) (self : list Line) :
  _validate_fields env (keys vals ++ ["user_id"; "date"; "unit_amount"]%string)
                   self
  = match _check_date env self with
    | Raised e => Some e
    | Returned _ =>
        match _check_unit_amount env self with
        | Raised e => Some e
        | Returned _ => None
        end
    end.
Proof.
  unfold _validate_fields, _constraint_methods, run_checks.
  rewrite (intersects_in "date"), (intersects_in "unit_amount");
    try (apply in_or_app; right); simpl; auto.
Qed.

(** On [write] a constraint runs when its field is a key of [vals]. *)
Lemma validate_on_write (env : Env) (vals : Vals) (self : list Line) :
  _validate_fields env (keys vals) self
  = match
      (if has (v_date vals) then _check_date env self else Returned None)
    with
    | Raised e => Some e
    | Returned _ =>
        match
          (if has (v_unit_amount vals) then _check_unit_amount env self
           else Returned None)
        with
        | Raised e => Some e
        | Returned _ => None
        end
    end.
Proof.
  unfold _validate_fields, _constraint_methods, run_checks, keys.
  destruct vals as [n t s u d a].
  destruct n, t, s, u, d, a; reflexivity.
Qed.

(** The verdict of the duration check on one record. *)
Lemma check_unit_amount_one (env : Env) (record : Line) :
  (unit_amount record <= 0 ->
   _check_unit_amount env [record]
   = Raised (ValidationError "Duration must be greater than 0 hours."))
  /\ (24 # 1 < unit_amount record ->
      _check_unit_amount env [record]
      = Raised (ValidationError
                  "Duration cannot exceed 24 hours for a single day."))
  /\ (valid_duration record ->
      exists w,
        _check_unit_amount env [record] = Returned w
        /\ (w <> None ->
            12 # 1 < unit_amount record /\ skip_duration_warning env = false)).
Proof.
  unfold valid_duration. simpl. split; [|split].
  - intros H. apply leb_le in H. now rewrite H.
  - intros H.
    assert (H0 : 0 < unit_amount record).
    { eapply Qlt_trans; [|exact H]. reflexivity. }
    apply leb_gt in H0. apply ltb_lt in H. now rewrite H0, H.
  - intros [H0 H24]. apply leb_gt in H0. apply ltb_ge in H24.
    rewrite H0, H24.
    destruct (Py.ltb (12 # 1) (unit_amount record)) eqn:E12;
      destruct (skip_duration_warning env); simpl; eexists;
      (split; [reflexivity|]); try congruence.
    intros _. split; [now apply ltb_lt | reflexivity].
Qed.

(** A recordset on which the duration check does not raise starts with a
    record of valid duration. *)
Lemma check_unit_amount_head (env : Env) (record : Line) (rest : list Line)
  (w : option Warning) :
  _check_unit_amount env (record :: rest) = Returned w ->
  valid_duration record.
Proof.
  simpl. unfold valid_duration.
  destruct (Py.leb (unit_amount record) 0) eqn:E0; [discriminate|].
  destruct (Py.ltb (24 # 1) (unit_amount record)) eqn:E24; [discriminate|].
  intros _. split; [now apply leb_gt | now apply ltb_ge].
Qed.

(** The [return] of the warning leaves the loop: the records after a
    record of more than 12 hours are not looked at. *)
Example check_unit_amount_returns_early :
  exists w,
    _check_unit_amount Sample.env
      [Sample.log 1 (mkRef 1 "Report") 738965 (13 # 1);
       Sample.log 2 (mkRef 1 "Report") 738965 0]
    = Returned (Some w).
Proof. eexists. reflexivity. Qed.

Lemma create_valid_duration (env : Env) (new_id : Z) (vals : Vals)
  (record : Line) :
  create env new_id vals = inr record -> valid_duration record.
Proof.
  unfold create, orm_create.
  destruct (v_task_id (autofill_name vals)) as [task|]; [|discriminate].
  rewrite validate_on_create.
  destruct (_check_date env _); [discriminate|].
  destruct (_check_unit_amount env _) eqn:E; [discriminate|].
  intros H. injection H as <-. eapply check_unit_amount_head, E.
Qed.

Lemma write_result (env : Env) (vals : Vals) (self self' : list Line) :
  write env vals self = inr self' -> self' = map (assign vals) self.
Proof.
  unfold write. destruct (_validate_fields env _ _); congruence.
Qed.

(** A write of the duration succeeds only with a valid one. *)
Lemma write_duration_valid (env : Env) (vals : Vals) (self self' : list Line)
  (d : Q) :
  v_unit_amount vals = Some d ->
  write env vals self = inr self' ->
  Forall valid_duration self'.
Proof.
  intros Hd H. pose proof (write_result _ _ _ _ H) as ->.
  unfold write in H. rewrite validate_on_write, Hd in H.
  destruct (if has (v_date vals) then _ else _); [discriminate|].
  destruct (_check_unit_amount env _) eqn:E; [discriminate|].
  destruct self as [|r self]; [constructor|].
  apply check_unit_amount_head in E.
  apply Forall_forall. intros r' Hin. apply in_map_iff in Hin.
  destruct Hin as [r0 [<- _]].
  unfold valid_duration in *. simpl in *. rewrite Hd in *. exact E.
Qed.

(** A write of other fields leaves the durations as they are. *)
Lemma write_keeps_duration (env : Env) (vals : Vals) (self self' : list Line) :
  v_unit_amount vals = None ->
  write env vals self = inr self' ->
  map unit_amount self' = map unit_amount self.
Proof.
  intros Hd H. pose proof (write_result _ _ _ _ H) as ->.
  rewrite map_map. apply map_ext. intros r. simpl. now rewrite Hd.
Qed.

Lemma assign_valid_duration (env : Env) (vals : Vals) (self self' : list Line) :
  write env vals self = inr self' ->
  forall r, In r self -> valid_duration r -> valid_duration (assign vals r).
Proof.
  intros H r Hin Hr.
  destruct (v_unit_amount vals) as [d|] eqn:Hd.
  - pose proof (write_duration_valid _ _ _ _ _ Hd H) as Hall.
    pose proof (write_result _ _ _ _ H) as ->.
    rewrite Forall_forall in Hall. apply Hall. now apply in_map.
  - unfold valid_duration in *. simpl. now rewrite Hd.
Qed.

Lemma step_valid_duration (table table' : list Line) :
  step table table' ->
  Forall valid_duration table -> Forall valid_duration table'.
Proof.
  intros Hstep Hall. destruct Hstep as [env id vals r t Hc | env vals sel s t Hw | sel t].
  - constructor; [|exact Hall]. eapply create_valid_duration, Hc.
  - rewrite Forall_forall in *. intros r' Hin.
    apply in_map_iff in Hin. destruct Hin as [r [<- Hin]].
    destruct (sel r) eqn:Es; [|now apply Hall].
    eapply assign_valid_duration; [exact Hw | | now apply Hall].
    apply filter_In. now split.
  - rewrite Forall_forall in *. intros r Hin.
    apply filter_In in Hin. now apply Hall.
Qed.

(** C5: the duration check raises a [ValidationError] on a duration
    [<= 0] and on a duration [> 24] and never on a duration in (0, 24],
    where it returns at most the warning for more than 12 hours; a create
    succeeds only with [0 < duration <= 24], an update that writes the
    duration too, an update of other fields leaves the durations as they
    are; so every entry of a table built by creates, updates and deletions
    has [0 < duration <= 24]. *)
Theorem duration_within_day :
  (forall env record,
     (unit_amount record <= 0 ->
      _check_unit_amount env [record]
      = Raised (ValidationError "Duration must be greater than 0 hours."))
     /\ (24 # 1 < unit_amount record ->
         _check_unit_amount env [record]
         = Raised (ValidationError
                     "Duration cannot exceed 24 hours for a single day."))
     /\ (0 < unit_amount record /\ unit_amount record <= 24 # 1 ->
         exists w,
           _check_unit_amount env [record] = Returned w
           /\ (w <> None -> 12 # 1 < unit_amount record)))
  /\ (forall env new_id vals record,
        create env new_id vals = inr record ->
        0 < unit_amount record /\ unit_amount record <= 24 # 1)
  /\ (forall env vals self self' d,
        v_unit_amount vals = Some d ->
        write env vals self = inr self' ->
        Forall (fun r => 0 < unit_amount r /\ unit_amount r <= 24 # 1) self')
  /\ (forall env vals self self',
        v_unit_amount vals = None ->
        write env vals self = inr self' ->
        map unit_amount self' = map unit_amount self)
  /\ (forall table,
        reachable table ->
        Forall (fun r => 0 < unit_amount r /\ unit_amount r <= 24 # 1) table).
Proof.
  split; [|split; [|split; [|split]]].
  - intros env record.
    destruct (check_unit_amount_one env record) as [H0 [H24 Hok]].
    split; [exact H0 | split; [exact H24|]].
    intros Hv. destruct (Hok Hv) as [w [Hw Hwarn]].
    exists w. split; [exact Hw|]. intros Hn. apply (Hwarn Hn).
  - apply create_valid_duration.
  - apply write_duration_valid.
  - apply write_keeps_duration.
  - intros table Hr. induction Hr as [|table table' _ IH Hstep].
    + constructor.
    + eapply step_valid_duration; eassumption.
Qed.

End Constraints.

(** No hours and 25 hours are refused, 13 hours pass with the warning, a
    log of 13 hours is created, and the table that holds it is within
    bounds. *)
Lemma duration_within_day_witness :
  TaskTimesheetLine._check_unit_amount Sample.env
    [Sample.log 1 (mkRef 1 "Report") 738965 0]
  = TaskTimesheetLine.Raised
      (TaskTimesheetLine.ValidationError "Duration must be greater than 0 hours.")
  /\ TaskTimesheetLine._check_unit_amount Sample.env
       [Sample.log 1 (mkRef 1 "Report") 738965 (25 # 1)]
     = TaskTimesheetLine.Raised
         (TaskTimesheetLine.ValidationError
            "Duration cannot exceed 24 hours for a single day.")
  /\ (exists w,
        TaskTimesheetLine._check_unit_amount Sample.env
          [Sample.log 1 (mkRef 1 "Report") 738965 (13 # 1)]
        = TaskTimesheetLine.Returned w)
  /\ Forall (fun r => 0 < unit_amount r /\ unit_amount r <= 24 # 1)
            [Sample.log 1 (mkRef 1 "Report") 738965 (13 # 1)].
Proof.
  destruct duration_within_day as [Hcheck [_ [_ [_ Hreach]]]].
  split; [|split; [|split]].
  - apply (Hcheck Sample.env (Sample.log 1 (mkRef 1 "Report") 738965 0)).
    discriminate.
  - apply (Hcheck Sample.env (Sample.log 1 (mkRef 1 "Report") 738965 (25 # 1))).
    reflexivity.
  - destruct (Hcheck Sample.env
                (Sample.log 1 (mkRef 1 "Report") 738965 (13 # 1)))
      as [_ [_ H]].
    destruct H as [w [Hw _]]; [split; [reflexivity | discriminate]|].
    exists w. exact Hw.
  - apply Hreach.
    apply (TaskTimesheetLine.reachable_step [] _
             TaskTimesheetLine.reachable_empty).
    apply (TaskTimesheetLine.step_create Sample.env 1
             (Sample.vals_hours (13 # 1))).
    reflexivity.
Defined.

(** ** The date of a time log *)

Section DateConstraint.

Import TaskTimesheetLine.

Variable env : Env.

(** The verdict of the date check on one record with a subtask that has
    a deadline. *)
Lemma check_date_deadline (record : Line) (d : date) :
  subtask_deadline record = Some d ->
  ((d < line_date record)%Z ->
   _check_date env [record]
   = Raised (ValidationError
               ("You cannot log time after the subtask deadline ("
                ++ PyDate.strftime_Ymd d ++ ")")))
  /\ ((line_date record <= d)%Z -> _check_date env [record] = Returned None).
Proof.
  intros H. simpl. rewrite H. unfold PyDate.gtb. split; intros Hd.
  - apply Z.ltb_lt in Hd. now rewrite Hd.
  - apply Z.ltb_ge in Hd. now rewrite Hd.
Qed.

(** The verdict on one record without subtask, or with a subtask without
    deadline. *)
Lemma check_date_today (record : Line) :
  subtask_deadline record = None ->
  ((datetime_now_date env < line_date record)%Z ->
   _check_date env [record]
   = Raised (ValidationError "You cannot log time for future dates"))
  /\ ((line_date record <= datetime_now_date env)%Z ->
      _check_date env [record] = Returned None).
Proof.
  intros H. simpl. rewrite H. unfold PyDate.gtb. split; intros Hd.
  - apply Z.ltb_lt in Hd. now rewrite Hd.
  - apply Z.ltb_ge in Hd. now rewrite Hd.
Qed.

(** [create] checks the date of the record it inserts. *)
Lemma create_checks_date (new_id : Z) (vals : Vals) (task : Ref) (e : Exception) :
  v_task_id vals = Some task ->
  _check_date env [new_record env new_id task (autofill_name vals)] = Raised e ->
  create env new_id vals = inl e.
Proof.
  intros Ht He. unfold create, orm_create.
  assert (Ht' : v_task_id (autofill_name vals) = Some task).
  { unfold autofill_name.
    destruct (v_subtask_id vals) as [[s|]|]; destruct (no_name vals);
      simpl; exact Ht. }
  rewrite Ht', validate_on_create, He. reflexivity.
Qed.

(** [write] checks the dates when [vals] has the key [date]. *)
Lemma write_checks_date (vals : Vals) (self : list Line) (d : date)
  (e : Exception) :
  v_date vals = Some d ->
  _check_date env (map (assign vals) self) = Raised e ->
  write env vals self = inl e.
Proof.
  intros Hd He. unfold write. rewrite validate_on_write, Hd. simpl.
  rewrite He. reflexivity.
Qed.

Lemma create_success (new_id : Z) (vals : Vals) (record : Line) :
  create env new_id vals = inr record ->
  ~ raises (_check_date env [record])
  /\ ~ raises (_check_unit_amount env [record]).
Proof.
  unfold create, orm_create.
  destruct (v_task_id (autofill_name vals)) as [task|]; [|discriminate].
  rewrite validate_on_create.
  destruct (_check_date env _) eqn:Ed; [discriminate|].
  destruct (_check_unit_amount env _) eqn:Eu; [discriminate|].
  intros H. injection H as <-. rewrite Ed, Eu.
  split; intros [e He]; discriminate.
Qed.

Lemma write_date_success (vals : Vals) (self self' : list Line) (d : date) :
  v_date vals = Some d ->
  write env vals self = inr self' ->
  ~ raises (_check_date env self').
Proof.
  intros Hd H. pose proof (write_result _ _ _ _ H) as ->.
  unfold write in H. rewrite validate_on_write, Hd in H. simpl in H.
  destruct (_check_date env _); [discriminate|].
  intros [e He]. discriminate.
Qed.

Lemma subtask_deadline_some (record : Line) (subtask : Subtask) (d : date) :
  line_subtask_id record = Some subtask -> deadline subtask = Some d ->
  subtask_deadline record = Some d.
Proof. intros Hs Hd. unfold subtask_deadline. now rewrite Hs. Qed.

Lemma subtask_deadline_none (record : Line) :
  line_subtask_id record = None
  \/ (exists subtask,
        line_subtask_id record = Some subtask /\ deadline subtask = None) ->
  subtask_deadline record = None.
Proof.
  unfold subtask_deadline. intros [H | [s [Hs Hd]]].
  - now rewrite H.
  - now rewrite Hs.
Qed.

(** C6, as stated, fails: an update that selects a subtask due on
    2024-03-15 on a log dated 2024-03-20, and writes no date, is
    accepted; the log then references a subtask with a deadline and is
    dated after it.  The log itself was created by an accepted [create],
    so the table that holds the updated log is reachable. *)
Lemma date_unchecked_update_counterexample :
  let old := Sample.log 1 (mkRef 1 "Report") 738965 (2 # 1) in
  let record := assign Sample.vals_select_chapter old in
  create Sample.env 1 (Sample.vals_hours (2 # 1)) = inr old
  /\ write Sample.env Sample.vals_select_chapter [old] = inr [record]
  /\ line_subtask_id record = Some Sample.chapter
  /\ deadline Sample.chapter = Some 738960%Z
  /\ (738960 < line_date record)%Z
  /\ reachable [record].
Proof.
  repeat split.
  apply (reachable_step [Sample.log 1 (mkRef 1 "Report") 738965 (2 # 1)]).
  - apply (reachable_step [] _ reachable_empty).
    apply (step_create Sample.env 1 (Sample.vals_hours (2 # 1))).
    reflexivity.
  - apply (step_write Sample.env Sample.vals_select_chapter (fun _ => true)
             [assign Sample.vals_select_chapter
                     (Sample.log 1 (mkRef 1 "Report") 738965 (2 # 1))]).
    reflexivity.
Qed.

(** C6, amended: on every create of a time log, and on every update that
    writes its date, the date check runs on the resulting record and the
    operation fails with what the check raises.  On an entry that
    references a subtask with a deadline the check raises if and only if
    [date > subtask.deadline], a [ValidationError] whose message names the
    deadline as year-month-day; on an entry without subtask, or with a
    subtask without deadline, it raises if and only if [date > today], a
    [ValidationError] for future dates. *)
Theorem date_check_verdict (record : Line) :
  (forall subtask d,
     line_subtask_id record = Some subtask -> deadline subtask = Some d ->
     (raises (_check_date env [record]) <-> (d < line_date record)%Z)
     /\ (forall e,
           _check_date env [record] = Raised e ->
           e = ValidationError
                 ("You cannot log time after the subtask deadline ("
                  ++ PyDate.strftime_Ymd d ++ ")")))
  /\ (line_subtask_id record = None
      \/ (exists subtask,
            line_subtask_id record = Some subtask /\ deadline subtask = None) ->
      (raises (_check_date env [record])
       <-> (datetime_now_date env < line_date record)%Z)
      /\ (forall e,
            _check_date env [record] = Raised e ->
            e = ValidationError "You cannot log time for future dates"))
  /\ (forall new_id vals task e,
        v_task_id vals = Some task ->
        record = new_record env new_id task (autofill_name vals) ->
        _check_date env [record] = Raised e ->
        create env new_id vals = inl e)
  /\ (forall new_id vals,
        create env new_id vals = inr record ->
        ~ raises (_check_date env [record]))
  /\ (forall vals old d e,
        v_date vals = Some d ->
        record = assign vals old ->
        _check_date env [record] = Raised e ->
        write env vals [old] = inl e)
  /\ (forall vals old d,
        v_date vals = Some d ->
        write env vals [old] = inr [record] ->
        ~ raises (_check_date env [record])).
Proof.
  split; [|split; [|split; [|split; [|split]]]].
  - intros subtask d Hs Hd.
    pose proof (subtask_deadline_some _ _ _ Hs Hd) as H.
    destruct (check_date_deadline record d H) as [Hlate Hok].
    split; [split|].
    + intros [e He]. destruct (Z.lt_ge_cases d (line_date record)) as [Hlt|Hge];
        [exact Hlt|]. rewrite (Hok Hge) in He. discriminate.
    + intros Hlt. eexists. apply (Hlate Hlt).
    + intros e He. destruct (Z.lt_ge_cases d (line_date record)) as [Hlt|Hge].
      * rewrite (Hlate Hlt) in He. congruence.
      * rewrite (Hok Hge) in He. discriminate.
  - intros Hn. pose proof (subtask_deadline_none _ Hn) as H.
    destruct (check_date_today record H) as [Hlate Hok].
    split; [split|].
    + intros [e He].
      destruct (Z.lt_ge_cases (datetime_now_date env) (line_date record))
        as [Hlt|Hge]; [exact Hlt|]. rewrite (Hok Hge) in He. discriminate.
    + intros Hlt. eexists. apply (Hlate Hlt).
    + intros e He.
      destruct (Z.lt_ge_cases (datetime_now_date env) (line_date record))
        as [Hlt|Hge].
      * rewrite (Hlate Hlt) in He. congruence.
      * rewrite (Hok Hge) in He. discriminate.
  - intros new_id vals task e Ht -> He. now apply create_checks_date with task.
  - intros new_id vals H. apply (create_success _ _ _ H).
  - intros vals old d e Hd -> He. now apply write_checks_date with d.
  - intros vals old d Hd H. apply (write_date_success _ _ _ _ Hd H).
Qed.

End DateConstraint.

(** A log dated 2024-03-16 on a subtask due on 2024-03-15 is refused
    with a message that names the deadline. *)
Lemma date_check_verdict_witness :
  TaskTimesheetLine._check_date Sample.env [Sample.late_line]
  = TaskTimesheetLine.Raised
      (TaskTimesheetLine.ValidationError
         "You cannot log time after the subtask deadline (2024-03-15)").
Proof.
  destruct (date_check_verdict Sample.env Sample.late_line) as [H _].
  destruct (H Sample.chapter 738960%Z eq_refl eq_refl) as [Hiff Hmsg].
  destruct (proj2 Hiff) as [e He]; [reflexivity|].
  rewrite He. f_equal. rewrite (Hmsg e He). reflexivity.
Defined.

(** ** The subtask of a time log and its task *)

Section SubtaskOfTask.

Import TaskTimesheetLine.















End SubtaskOfTask.


(** ** The weekly summary *)

Section WeeklySummary.

Import TaskTimesheetLine.

Lemma fold_left_Qplus (l : list Q) (a : Q) :
  fold_left Qplus l a == a + sumQ l.
Proof.
  revert a. induction l as [|x l IH]; intros a; simpl.
  - now rewrite Qplus_0_r.
  - rewrite IH. now rewrite Qplus_assoc.
Qed.

(** The builtin [sum] is the sum of the list. *)
Lemma sum_sumQ (l : list Q) : Py.sum l == sumQ l.
Proof. unfold Py.sum. rewrite fold_left_Qplus. apply Qplus_0_l. Qed.

(** The sum does not depend on the order of the list. *)
Lemma sumQ_permutation (l l' : list Q) :
  Permutation l l' -> sumQ l == sumQ l'.
Proof.
  induction 1 as [|x l l' _ IH|x y l|l l' l'' _ IH1 _ IH2]; simpl.
  - reflexivity.
  - now rewrite IH.
  - rewrite !Qplus_assoc. now rewrite (Qplus_comm y x).
  - now rewrite IH1.
Qed.

(** Two orders of the same records keep the same records of a task. *)
Lemma filter_permutation (keep : Line -> bool) (logs logs' : list Line) :
  Permutation logs logs' ->
  Permutation (filter keep logs) (filter keep logs').
Proof.
  induction 1 as [|x l l' _ IH|x y l|l l' l'' _ IH1 _ IH2]; simpl.
  - constructor.
  - destruct (keep x); [now constructor | exact IH].
  - destruct (keep x), (keep y); try reflexivity. constructor.
  - now transitivity (filter keep l').
Qed.

Lemma insert_line_permutation (a : Line) (l : list Line) :
  Permutation (insert_line a l) (a :: l).
Proof.
  induction l as [|b l IH]; simpl; [reflexivity|].
  destruct (order_leb a b); [reflexivity|].
  rewrite IH. constructor.
Qed.

(** [search] returns the records of the table that satisfy the domain,
    each as often as the table holds it. *)
Lemma search_permutation (domain : Line -> bool) (table : list Line) :
  Permutation (search domain table) (filter domain table).
Proof.
  unfold search. induction (filter domain table) as [|a l IH]; simpl.
  - constructor.
  - rewrite insert_line_permutation. now constructor.
Qed.

Lemma order_leb_in_order (a b : Line) : order_leb a b = true <-> in_order a b.
Proof.
  unfold order_leb, in_order.
  rewrite orb_true_iff, andb_true_iff, Z.ltb_lt, Z.eqb_eq, Z.leb_le.
  reflexivity.
Qed.

Lemma order_leb_total (a b : Line) : order_leb a b = false -> in_order b a.
Proof.
  unfold order_leb, in_order. rewrite orb_false_iff, andb_false_iff.
  rewrite Z.ltb_ge, Z.eqb_neq, Z.leb_gt. lia.
Qed.

Lemma insert_line_sorted (a : Line) (l : list Line) :
  Sorted in_order l -> Sorted in_order (insert_line a l).
Proof.
  induction 1 as [|b l Hs IH Hb]; simpl.
  - repeat constructor.
  - destruct (order_leb a b) eqn:E.
    + constructor; [now constructor|]. constructor.
      now apply order_leb_in_order.
    + constructor; [exact IH|].
      destruct l as [|c l]; simpl.
      * constructor. now apply order_leb_total.
      * destruct (order_leb a c); constructor.
        -- now apply order_leb_total.
        -- now inversion Hb.
Qed.

(** [search] returns the records in the order of [_order]. *)
Lemma search_sorted (domain : Line -> bool) (table : list Line) :
  Sorted in_order (search domain table).
Proof.
  unfold search. induction (filter domain table) as [|a l IH]; simpl.
  - constructor.
  - now apply insert_line_sorted.
Qed.

Lemma mapped_task_id_incl (l : list Line) :
  incl (mapped_task_id l) (map line_task_id l).
Proof.
  induction l as [|r l IH]; simpl; [easy|].
  intros t [<- | Ht]; [now left|].
  right. apply filter_In in Ht. apply IH, Ht.
Qed.

Lemma mapped_task_id_ids (l : list Line) (id : Z) :
  In id (map ref_id (mapped_task_id l))
  <-> In id (map (fun r => ref_id (line_task_id r)) l).
Proof.
  induction l as [|r l IH]; simpl; [reflexivity|].
  rewrite <- IH. split.
  - intros [H | H]; [now left|]. right.
    apply in_map_iff in H. destruct H as [t [<- Ht]].
    apply filter_In in Ht. apply in_map, Ht.
  - intros [H | H]; [now left|].
    destruct (Z.eq_dec (ref_id (line_task_id r)) id) as [E | E]; [now left|].
    right. apply in_map_iff in H. destruct H as [t [<- Ht]].
    apply in_map, filter_In. split; [exact Ht|].
    apply negb_true_iff, Z.eqb_neq. congruence.
Qed.

(** Distinct identifiers stay distinct when tasks are dropped. *)
Lemma distinct_ids_filter (keep : Ref -> bool) (tasks : list Ref) :
  NoDup (map ref_id tasks) -> NoDup (map ref_id (filter keep tasks)).
Proof.
  induction tasks as [|t tasks IH]; simpl; [constructor|].
  intros H. inversion H as [|? ? Ht Hrest]; subst.
  destruct (keep t); simpl; [|now apply IH].
  constructor; [|now apply IH].
  intros Hin. apply Ht. apply in_map_iff in Hin.
  destruct Hin as [t' [Hid Hin]]. apply filter_In in Hin.
  rewrite <- Hid. apply in_map, Hin.
Qed.

(** [mapped('task_id')] holds every task once. *)
Lemma mapped_task_id_nodup (l : list Line) :
  NoDup (map ref_id (mapped_task_id l)).
Proof.
  induction l as [|r l IH]; simpl; constructor.
  - intros Hin. apply in_map_iff in Hin. destruct Hin as [t [Ht Hin]].
    apply filter_In in Hin. destruct Hin as [_ Hne].
    apply negb_true_iff, Z.eqb_neq in Hne. congruence.
  - now apply distinct_ids_filter.
Qed.

Lemma len_set_nodup (values : list Z) :
  NoDup values -> len_set values = List.length values.
Proof. intros H. unfold len_set. now rewrite nodup_fixed_point. Qed.

(** C8: for a user [u] and a range of dates, [get_weekly_summary]
    considers exactly the time logs of the table with that user and a date
    in [[date_from, date_to]], bounds included, [filter p table] for any
    test [p] of that condition.  It returns the sum of their hours, the
    number of their distinct dates, the number of their distinct tasks,
    and for each of these tasks, once, its name, the sum of the hours of
    its logs and their number.  When the range is omitted it is Monday to
    Sunday of the week of today. *)
Theorem weekly_summary (env : Env) (table : list Line) (u : Z)
  (date_from date_to : date) (p : Line -> bool) :
  u <> 0%Z ->
  (forall l,
     p l = true
     <-> ref_id (line_user_id l) = u
         /\ (date_from <= line_date l <= date_to)%Z) ->
  let considered := filter p table in
  let s :=
    get_weekly_summary env table (Some u) (Some date_from) (Some date_to) in
  total_hours s == sumQ (map unit_amount considered)
  /\ (exists dates,
        NoDup dates
        /\ (forall d, In d dates <-> In d (map line_date considered))
        /\ days_worked s = List.length dates)
  /\ (exists tasks,
        NoDup (map ref_id tasks)
        /\ (forall id,
              In id (map ref_id tasks)
              <-> In id (map (fun l => ref_id (line_task_id l)) considered))
        /\ incl tasks (map line_task_id considered)
        /\ tasks_worked s = List.length tasks
        /\ Forall2
             (fun task detail =>
                let task_logs :=
                  filter (fun l => (ref_id (line_task_id l) =? ref_id task)%Z)
                         considered in
                detail_task detail = ref_name task
                /\ detail_hours detail == sumQ (map unit_amount task_logs)
                /\ detail_entries detail = List.length task_logs)
             tasks (details s))
  /\ (let monday :=
        (date_today env - PyDate.weekday (date_today env))%Z in
      get_weekly_summary env table (Some u) None None
      = get_weekly_summary env table (Some u)
                           (Some monday) (Some (monday + 6)%Z)
      /\ PyDate.weekday monday = 0%Z
      /\ PyDate.weekday (monday + 6) = 6%Z
      /\ (monday <= date_today env <= monday + 6)%Z).
Proof.
  intros Hu Hp considered s.
  assert (Hdom : forall l, weekly_domain u date_from date_to l = p l).
  { intros l. apply eq_true_iff_eq. rewrite Hp. unfold weekly_domain.
    rewrite !andb_true_iff, Z.eqb_eq, !Z.leb_le. tauto. }
  pose (time_logs := search (weekly_domain u date_from date_to) table).
  assert (Hperm : Permutation time_logs considered).
  { unfold time_logs, considered.
    rewrite (filter_ext p (weekly_domain u date_from date_to))
      by (intros l; symmetry; apply Hdom).
    apply search_permutation. }
  assert (Hs : s = mkWeeklySummary
                     (Py.sum (map unit_amount time_logs))
                     (len_set (map line_date time_logs))
                     (len_set (map ref_id (mapped_task_id time_logs)))
                     (map (fun task =>
                             let task_logs :=
                               filter (fun l => (ref_id (line_task_id l)
                                                 =? ref_id task)%Z) time_logs in
                             mkDetail (ref_name task)
                                      (Py.sum (map unit_amount task_logs))
                                      (List.length task_logs))
                          (mapped_task_id time_logs))).
  { subst s. unfold get_weekly_summary, default_user_id. simpl.
    apply Z.eqb_neq in Hu. rewrite Hu. reflexivity. }
  rewrite Hs. simpl. split; [|split; [|split]].
  - rewrite sum_sumQ. apply sumQ_permutation. now apply Permutation_map.
  - exists (nodup Z.eq_dec (map line_date time_logs)). split; [|split].
    + apply NoDup_nodup.
    + intros d. rewrite nodup_In. split; apply Permutation_in.
      * now apply Permutation_map.
      * apply Permutation_map. now symmetry.
    + reflexivity.
  - exists (mapped_task_id time_logs). split; [|split; [|split; [|split]]].
    + apply mapped_task_id_nodup.
    + intros id. rewrite mapped_task_id_ids. split; apply Permutation_in.
      * now apply Permutation_map.
      * apply Permutation_map. now symmetry.
    + intros t Ht. apply mapped_task_id_incl in Ht.
      eapply Permutation_in; [|exact Ht]. now apply Permutation_map.
    + rewrite len_set_nodup by apply mapped_task_id_nodup.
      apply length_map.
    + apply Forall2_map_self. intros task. simpl.
      pose proof (filter_permutation
                    (fun l => (ref_id (line_task_id l) =? ref_id task)%Z)
                    _ _ Hperm) as Hf.
      split; [reflexivity | split].
      * rewrite sum_sumQ. apply sumQ_permutation. now apply Permutation_map.
      * now apply Permutation_length.
  - unfold PyDate.weekday.
    split; [reflexivity|].
    pose proof (Z.mod_pos_bound (date_today env + 6) 7 ltac:(lia)) as Hb.
    pose proof (Z.div_mod (date_today env + 6) 7 ltac:(lia)) as Hd.
    split; [|split].
    + replace (date_today env - (date_today env + 6) mod 7 + 6)%Z
        with (0 + (date_today env + 6) / 7 * 7)%Z by lia.
      now rewrite Z.mod_add by lia.
    + replace (date_today env - (date_today env + 6) mod 7 + 6 + 6)%Z
        with (6 + (date_today env + 6) / 7 * 7)%Z by lia.
      now rewrite Z.mod_add by lia.
    + lia.
Qed.

End WeeklySummary.

(** The week of Monday 2024-03-25 for Alice: 7.5 hours on two days and
    two tasks, 4 hours in one log on "Audit" and 3.5 hours in two logs on
    "Report". *)
Lemma weekly_summary_witness :
  let s :=
    TaskTimesheetLine.get_weekly_summary Sample.env_thursday Sample.week_table
      (Some 7%Z) (Some 738970%Z) (Some 738976%Z) in
  TaskTimesheetLine.total_hours s == 15 # 2
  /\ TaskTimesheetLine.get_weekly_summary Sample.env_thursday Sample.week_table
       (Some 7%Z) None None
     = s.
Proof.
  intros s.
  destruct (weekly_summary Sample.env_thursday Sample.week_table 7
              738970 738976
              (TaskTimesheetLine.weekly_domain 7 738970 738976))
    as [Htotal [_ [_ [Hweek _]]]].
  - discriminate.
  - intros l. unfold TaskTimesheetLine.weekly_domain.
    rewrite !andb_true_iff, Z.eqb_eq, !Z.leb_le. tauto.
  - split.
    + subst s. rewrite Htotal. reflexivity.
    + exact Hweek.
Defined.

(** The values of the summary of that week. *)
Example weekly_summary_values :
  let s :=
    TaskTimesheetLine.get_weekly_summary Sample.env_thursday Sample.week_table
      (Some 7%Z) None None in
  Qred (TaskTimesheetLine.total_hours s) = 15 # 2
  /\ TaskTimesheetLine.days_worked s = 2%nat
  /\ TaskTimesheetLine.tasks_worked s = 2%nat
  /\ map (fun d => (TaskTimesheetLine.detail_task d,
                    Qred (TaskTimesheetLine.detail_hours d),
                    TaskTimesheetLine.detail_entries d))
         (TaskTimesheetLine.details s)
     = [("Audit"%string, 4 # 1, 1%nat); ("Report"%string, 7 # 2, 2%nat)].
Proof. vm_compute. repeat split. Qed.

(** * Further properties *)

(** ** Hours spent and the progress by hours *)

Section HoursMore.

Import TaskManagement.

Lemma effective_hours_sumQ (task : Task) :
  effective_hours (_compute_effective_hours_1 task)
  == sumQ (map unit_amount (timesheet_ids task)).
Proof. simpl. apply sum_sumQ. Qed.

Lemma sumQ_valid_durations (logs : list Line) :
  Forall valid_duration logs ->
  0 <= sumQ (map unit_amount logs)
  /\ (logs <> [] -> 0 < sumQ (map unit_amount logs))
  /\ sumQ (map unit_amount logs) <= (24 # 1) * len logs.
Proof.
  induction 1 as [|l logs [H0 H24] _ [IH0 [_ IH24]]]; simpl.
  - split; [apply Qle_refl | split; [congruence | apply Qle_refl]].
  - split; [|split].
    + apply Qlt_le_weak in H0.
      rewrite <- (Qplus_0_r 0). now apply Qplus_le_compat.
    + intros _. rewrite <- (Qplus_0_r 0). now apply Qplus_lt_le_compat.
    + assert (E : len (l :: logs) == 1 + len logs).
      { unfold len. simpl List.length. rewrite Nat2Z.inj_succ, <- Z.add_1_l.
        now rewrite inject_Z_plus. }
      rewrite E, Qmult_plus_distr_r, Qmult_1_r.
      now apply Qplus_le_compat.
Qed.

(** X2: when every time log of a task has a duration in (0, 24], the
    hours spent are not negative, are positive as soon as there is a time
    log, and are at most 24 hours per time log. *)
Theorem effective_hours_bounds (task : Task) :
  Forall valid_duration (timesheet_ids task) ->
  let hours := effective_hours (_compute_effective_hours_1 task) in
  0 <= hours
  /\ (timesheet_ids task <> [] -> 0 < hours)
  /\ hours <= (24 # 1) * len (timesheet_ids task).
Proof.
  intros H hours. subst hours.
  destruct (sumQ_valid_durations _ H) as [H0 [Hpos H24]].
  rewrite effective_hours_sumQ. auto.
Qed.

Lemma Qabs_self_difference (x : Q) : Qabs (x - x) == 0.
Proof.
  assert (E : x - x == 0) by (unfold Qminus; apply Qplus_opp_r).
  rewrite E. reflexivity.
Qed.

(** X3: after the recomputation of a task with planned hours and without
    subtasks, the progress is within 5 points of the progress by hours. *)
Theorem progress_within_band (task : Task) :
  0 < planned_hours task -> subtask_ids task = [] ->
  Qabs (progress (_compute_remaining_hours_1 task)
        - Qmin (100 # 1)
               (effective_hours task / planned_hours task * (100 # 1)))
  <= 5 # 1.
Proof.
  intros Hp Hs.
  destruct (progress_without_subtasks task Hp Hs) as [Hfar Hnear].
  destruct (Qlt_le_dec (5 # 1)
              (Qabs (progress task
                     - Qmin (100 # 1)
                            (effective_hours task / planned_hours task
                             * (100 # 1))))) as [H | H].
  - rewrite (Hfar H), Qabs_self_difference. discriminate.
  - rewrite (Hnear (Qle_not_lt _ _ H)). exact H.
Qed.

(** X4: a second recomputation of the remaining hours changes nothing. *)
Theorem compute_remaining_hours_idempotent (self : list Task) :
  _compute_remaining_hours (_compute_remaining_hours self)
  = _compute_remaining_hours self.
Proof.
  unfold _compute_remaining_hours. rewrite map_map. apply map_ext.
  intros task.
  destruct (Py.ltb 0 (planned_hours task)
            && negb (nonempty_set (subtask_ids task))) eqn:Eg;
    [destruct (Py.ltb (5 # 1)
                 (Py.abs (progress task
                          - Py.min (100 # 1)
                                   (effective_hours task / planned_hours task
                                    * (100 # 1))))) eqn:Ec|].
  - assert (Hb : _compute_remaining_hours_1 task
                 = set_progress
                     (Py.min (100 # 1)
                             (effective_hours task / planned_hours task
                              * (100 # 1)))
                     (set_remaining_hours
                        (Py.or_else (planned_hours task) 0
                         - effective_hours task) task)).
    { unfold _compute_remaining_hours_1.
      cbn [planned_hours subtask_ids effective_hours progress
           set_remaining_hours].
      now rewrite Eg, Ec. }
    rewrite Hb. unfold _compute_remaining_hours_1.
    cbn [planned_hours subtask_ids effective_hours progress
         set_remaining_hours set_progress].
    rewrite Eg, abs_Qabs.
    rewrite (proj2 (ltb_ge (5 # 1) _)); [reflexivity|].
    rewrite Qabs_self_difference. discriminate.
  - assert (Hb : _compute_remaining_hours_1 task
                 = set_remaining_hours
                     (Py.or_else (planned_hours task) 0
                      - effective_hours task) task).
    { unfold _compute_remaining_hours_1.
      cbn [planned_hours subtask_ids effective_hours progress
           set_remaining_hours].
      now rewrite Eg, Ec. }
    rewrite Hb. unfold _compute_remaining_hours_1.
    cbn [planned_hours subtask_ids effective_hours progress
         set_remaining_hours].
    now rewrite Eg, Ec.
  - assert (Hb : _compute_remaining_hours_1 task
                 = set_remaining_hours
                     (Py.or_else (planned_hours task) 0
                      - effective_hours task) task).
    { unfold _compute_remaining_hours_1.
      cbn [planned_hours subtask_ids effective_hours progress
           set_remaining_hours].
      now rewrite Eg. }
    rewrite Hb. unfold _compute_remaining_hours_1.
    cbn [planned_hours subtask_ids effective_hours progress
         set_remaining_hours].
    now rewrite Eg.
Qed.

Lemma hours_progress_percentage (task : Task) :
  0 < planned_hours task -> 0 <= effective_hours task ->
  percentage (Qmin (100 # 1)
                   (effective_hours task / planned_hours task * (100 # 1))).
Proof.
  intros Hp He. split.
  - apply Q.min_glb; [discriminate|].
    apply Qmult_le_0_compat; [|discriminate].
    apply Qmult_le_0_compat; [exact He|].
    apply Qinv_le_0_compat. now apply Qlt_le_weak.
  - apply Q.le_min_l.
Qed.

(** X5: the recomputation of the remaining hours keeps the progress a
    percentage when the hours spent are not negative. *)
Theorem compute_remaining_hours_percentage (task : Task) :
  0 <= effective_hours task ->
  percentage (progress task) ->
  percentage (progress (_compute_remaining_hours_1 task)).
Proof.
  intros He Hpct.
  destruct (subtask_ids task) as [|s l] eqn:Es.
  - destruct (Qlt_le_dec 0 (planned_hours task)) as [Hp | Hp].
    + destruct (progress_without_subtasks task Hp Es) as [Hfar Hnear].
      destruct (Qlt_le_dec (5 # 1)
                  (Qabs (progress task
                         - Qmin (100 # 1)
                                (effective_hours task / planned_hours task
                                 * (100 # 1))))) as [H | H].
      * rewrite (Hfar H). now apply hours_progress_percentage.
      * now rewrite (Hnear (Qle_not_lt _ _ H)).
    + unfold _compute_remaining_hours_1. simpl.
      rewrite (proj2 (ltb_ge _ _) Hp). exact Hpct.
  - rewrite progress_with_subtasks; [exact Hpct|]. rewrite Es. discriminate.
Qed.

End HoursMore.

(** ** Progress from the subtasks *)

Section SubtasksMore.

Import TaskManagement TaskManagementMore.

Lemma filter_length_le {A} (f : A -> bool) (l : list A) :
  (List.length (filter f l) <= List.length l)%nat.
Proof.
  induction l as [|x l IH]; simpl; [lia|]. destruct (f x); simpl; lia.
Qed.

Lemma filter_length_all {A} (f : A -> bool) (l : list A) :
  List.length (filter f l) = List.length l <-> Forall (fun x => f x = true) l.
Proof.
  induction l as [|x l IH]; simpl.
  - split; [constructor | reflexivity].
  - pose proof (filter_length_le f l) as Hle.
    destruct (f x) eqn:E; simpl; split.
    + intros H. constructor; [exact E|]. apply IH. lia.
    + intros H. inversion H; subst. f_equal. now apply IH.
    + intros H. lia.
    + intros H. inversion H; subst. congruence.
Qed.

Lemma filter_length_none {A} (f : A -> bool) (l : list A) :
  List.length (filter f l) = 0%nat <-> Forall (fun x => f x = false) l.
Proof.
  induction l as [|x l IH]; simpl.
  - split; [constructor | reflexivity].
  - destruct (f x) eqn:E; simpl; split.
    + discriminate.
    + intros H. inversion H; subst. congruence.
    + intros H. constructor; [exact E | now apply IH].
    + intros H. inversion H; subst. now apply IH.
Qed.

(** The share of [done] among [total], as a percentage. *)
Lemma ratio_percentage (done total : nat) :
  (done <= total)%nat -> (0 < total)%nat ->
  let p := inject_Z (Z.of_nat done) / inject_Z (Z.of_nat total) * (100 # 1) in
  percentage p
  /\ (p == 100 # 1 <-> done = total)
  /\ (p == 0 <-> done = 0%nat).
Proof.
  intros Hle Hpos p. subst p.
  unfold percentage, Qdiv, Qmult, Qinv, Qle, Qeq, inject_Z. simpl.
  destruct (Z.of_nat total) as [|t|t] eqn:Et; try lia. simpl.
  destruct (Z.of_nat done) as [|d|d] eqn:Ed; lia.
Qed.

(** X6: on a task with subtasks, [update_progress_from_subtasks] gives a
    percentage, which is 100 exactly when every subtask is done and 0
    exactly when none is. *)
Theorem progress_from_subtasks_extremes (task : Task) :
  subtask_ids task <> [] ->
  let p := progress (update_progress_from_subtasks_1 task) in
  percentage p
  /\ (p == 100 # 1 <-> Forall (fun s => is_done s = true) (subtask_ids task))
  /\ (p == 0 <-> Forall (fun s => is_done s = false) (subtask_ids task)).
Proof.
  intros H p. subst p. rewrite (update_with_subtasks task H).
  unfold filtered_is_done, len.
  assert (Hpos : (0 < List.length (subtask_ids task))%nat).
  { destruct (subtask_ids task); [congruence | simpl; lia]. }
  destruct (ratio_percentage _ _ (filter_length_le is_done (subtask_ids task))
              Hpos) as [Hpct [H100 H0]].
  split; [exact Hpct | split].
  - rewrite H100. apply filter_length_all.
  - rewrite H0. apply filter_length_none.
Qed.

(** X7: [update_progress_from_subtasks] keeps the progress a percentage:
    the result is one on every task with subtasks, and on a task without
    subtasks whenever the progress was one. *)
Theorem update_progress_percentage (task : Task) :
  subtask_ids task <> [] \/ percentage (progress task) ->
  percentage (progress (update_progress_from_subtasks_1 task)).
Proof.
  destruct (subtask_ids task) as [|s l] eqn:Es.
  - intros [H | H]; [congruence|].
    unfold update_progress_from_subtasks_1. rewrite Es. simpl.
    repeat match goal with
           | |- context [if ?c then _ else _] => destruct c
           end; simpl; try exact H; split; discriminate.
  - intros _.
    assert (Hne : subtask_ids task <> []) by (rewrite Es; discriminate).
    rewrite (update_with_subtasks task Hne). unfold filtered_is_done, len.
    apply ratio_percentage; [apply filter_length_le|].
    rewrite Es. simpl. lia.
Qed.

(** X8: on a task without subtasks the stage handler and
    [update_progress_from_subtasks] give the same progress. *)
Theorem stage_progress_agrees (now : datetime) (task : Task) :
  subtask_ids task = [] ->
  progress (_onchange_stage_id now task)
  = progress (update_progress_from_subtasks_1 task).
Proof.
  intros Hs. unfold _onchange_stage_id, update_progress_from_subtasks_1.
  rewrite Hs. simpl. unfold stage_name_is.
  destruct (stage_id task) as [stage|]; [|reflexivity].
  repeat match goal with
         | |- context [if ?c then _ else _] => destruct c
         end; reflexivity.
Qed.

(** X9: the counters of [_compute_subtask_count] satisfy
    [0 <= completed <= count]; they are equal exactly when every subtask
    is done, and on a task with subtasks
    [update_progress_from_subtasks] gives [completed / count * 100]. *)
Theorem subtask_count_bounds (task : Task) :
  let c := _compute_subtask_count_1 task in
  (0 <= subtask_completed_count c <= subtask_count c)%Z
  /\ (subtask_completed_count c = subtask_count c
      <-> Forall (fun s => is_done s = true) (subtask_ids task))
  /\ (subtask_ids task <> [] ->
      progress (update_progress_from_subtasks_1 task)
      == inject_Z (subtask_completed_count c) / inject_Z (subtask_count c)
         * (100 # 1)).
Proof.
  intros c. subst c. simpl.
  pose proof (filter_length_le is_done (subtask_ids task)) as Hle.
  split; [unfold filtered_is_done; lia | split].
  - unfold filtered_is_done. rewrite Nat2Z.inj_iff. apply filter_length_all.
  - intros H. rewrite (update_with_subtasks task H). reflexivity.
Qed.

End SubtasksMore.

(** ** The dates and the assignment of a task *)

Section TaskFormMore.

Import TaskTimesheetLine TaskManagementMore.

(** X10: [_check_date_range] raises exactly when a task of the recordset
    has both dates and its deadline before its start (equal dates pass,
    a missing date passes); on one task, [_onchange_date_range] warns
    exactly when the constraint would raise. *)
Theorem date_range_check (self : list TaskDates) :
  (raises (_check_date_range self) <-> Exists inverted_range self)
  /\ (forall task,
        _onchange_date_range task <> None
        <-> raises (_check_date_range [task])).
Proof.
  assert (Hone : forall task,
             (_onchange_date_range task <> None <-> inverted_range task)
             /\ (inverted_range task
                 <-> (exists start due,
                        date_start task = Some start
                        /\ date_deadline task = Some due
                        /\ (due <? start)%Z = true))).
  { intros task. split.
    - unfold _onchange_date_range, inverted_range.
      destruct (date_start task) as [s|], (date_deadline task) as [d|];
        try (split; [congruence | intros [? [? [? [? ?]]]]; congruence]).
      destruct (d <? s)%Z eqn:E.
      + split; [|discriminate]. intros _. exists s, d.
        apply Z.ltb_lt in E. auto.
      + split; [congruence|]. intros [s' [d' [Hs [Hd Hlt]]]].
        assert (s' = s) by congruence. assert (d' = d) by congruence. subst.
        apply Z.ltb_ge in E. lia.
    - unfold inverted_range. split; intros [s [d [Hs [Hd H]]]];
        exists s, d; repeat split; auto; now apply Z.ltb_lt. }
  assert (Hall : forall l,
             raises (_check_date_range l) <-> Exists inverted_range l).
  { induction l as [|task l IH].
    - split; [intros [e He]; discriminate | intros H; inversion H].
    - rewrite Exists_cons, <- IH. simpl.
      destruct (date_start task) as [s|] eqn:Es;
        destruct (date_deadline task) as [d|] eqn:Ed;
        try (split; [now right|];
             intros [[s' [d' [Hs [Hd _]]]] | H]; [congruence | exact H]).
      destruct (d <? s)%Z eqn:E.
      + split; [|intros _; eexists; reflexivity].
        intros _. left. exists s, d. apply Z.ltb_lt in E. auto.
      + split; [now right|].
        intros [[s' [d' [Hs [Hd Hlt]]]] | H]; [|exact H].
        assert (s' = s) by congruence. assert (d' = d) by congruence. subst.
        apply Z.ltb_ge in E. lia. }
  split; [apply Hall|].
  intros task. rewrite (proj1 (Hone task)), Hall, Exists_cons, Exists_nil.
  tauto.
Qed.

(** X11: the handler of [task_type] leaves an individual task without
    team and with a user, and a team task without user; the handler of
    [team_id] makes a task with a team a team task; the first after the
    second, on a task with a team, gives a team task with that team and
    no user. *)
Theorem assignment_handlers (env_user : Ref) (a : Assignment) :
  (task_type a = Some "individual"%string ->
   let b := _onchange_task_type env_user a in
   team_id b = None /\ user_id b <> None
   /\ _compute_is_user_team_task_1 env_user b = false)
  /\ (task_type a = Some "team"%string ->
      let b := _onchange_task_type env_user a in
      user_id b = None /\ team_id b = team_id a)
  /\ (team_id a <> None ->
      let c := _onchange_team_id a in
      task_type c = Some "team"%string
      /\ team_id c = team_id a /\ user_id c = user_id a)
  /\ (team_id a <> None ->
      let d := _onchange_task_type env_user (_onchange_team_id a) in
      task_type d = Some "team"%string
      /\ team_id d = team_id a /\ user_id d = None).
Proof.
  destruct a as [ty u t da].
  split; [|split; [|split]]; simpl.
  - intros ->. unfold _onchange_task_type, task_type_is. simpl.
    destruct u; simpl; repeat split; discriminate.
  - intros ->. unfold _onchange_task_type, task_type_is. simpl. auto.
  - intros Ht. destruct t as [t|]; [|congruence].
    unfold _onchange_team_id, task_type_is. simpl.
    destruct ty as [ty|]; simpl; [|auto].
    destruct (ty =? "team")%string eqn:E; simpl; [|auto].
    apply String.eqb_eq in E. subst. auto.
  - intros Ht. destruct t as [t|]; [|congruence].
    unfold _onchange_team_id, task_type_is. simpl.
    destruct ty as [ty|]; simpl.
    + destruct (ty =? "team")%string eqn:E; simpl.
      * apply String.eqb_eq in E. subst.
        unfold _onchange_task_type, task_type_is. simpl. auto.
      * unfold _onchange_task_type, task_type_is. simpl. auto.
    + unfold _onchange_task_type, task_type_is. simpl. auto.
Qed.

(** X12: the head of [create] keeps a given stage with the given
    progress; without a given stage and with a stage "To-Do" in the
    registry it takes that stage and the progress 0, whatever progress
    was given; without either it leaves both as given. *)
Theorem create_stage_and_progress (env : TaskEnv) (vals : TaskVals) :
  let v := create_vals env vals in
  (truthy_id (tv_stage_id vals) = true ->
   tv_stage_id v = tv_stage_id vals /\ tv_progress v = tv_progress vals)
  /\ (truthy_id (tv_stage_id vals) = false ->
      forall default_stage,
        search_to_do env = Some default_stage ->
        stage_name (snd default_stage) = "To-Do"%string
        /\ In default_stage (env_stages env)
        /\ tv_stage_id v = Some (fst default_stage)
        /\ tv_progress v = Some 0)
  /\ (truthy_id (tv_stage_id vals) = false ->
      search_to_do env = None ->
      tv_stage_id v = tv_stage_id vals /\ tv_progress v = tv_progress vals).
Proof.
  intros v. subst v. unfold create_vals.
  set (v1 := match tv_task_type vals with Some _ => _ | None => _ end).
  set (v2 := if truthy_id (tv_user_id v1) then _ else v1).
  assert (Hs : tv_stage_id v2 = tv_stage_id vals
               /\ tv_progress v2 = tv_progress vals).
  { subst v2 v1. destruct (tv_task_type vals) as [t|];
      repeat match goal with
             | |- context [if ?c then _ else _] => destruct c
             end; simpl; auto. }
  destruct Hs as [Hs Hp]. rewrite Hs.
  split; [|split].
  - intros H. rewrite H. simpl. auto.
  - intros H ds Hd. rewrite H, Hd. simpl.
    unfold search_to_do in Hd. apply find_some in Hd.
    destruct Hd as [Hin Hn]. apply String.eqb_eq in Hn. auto.
  - intros H Hd. rewrite H, Hd. simpl. auto.
Qed.

(** X13: the head of [create] stamps the assignment date exactly when
    the values, after the default of an individual task, hold a user that
    is not empty, and an individual task always gets one when the current
    user has an identifier; the head of [write] stamps it whenever the
    key [user_id] is present, also when the user is emptied. *)
Theorem assignment_date_stamp (env : TaskEnv) (vals : TaskVals) :
  let v := create_vals env vals in
  (truthy_id (tv_user_id v) = true -> tv_date_assign v = Some (env_now env))
  /\ (truthy_id (tv_user_id v) = false ->
      tv_date_assign v = tv_date_assign vals)
  /\ (truthy_id (tv_user_id vals) = true -> tv_user_id v = tv_user_id vals)
  /\ (tv_task_type vals = Some "individual"%string -> env_uid env <> 0%Z ->
      truthy_id (tv_user_id v) = true)
  /\ (forall u,
        tv_user_id vals = Some u ->
        tv_date_assign (write_vals env vals) = Some (env_now env))
  /\ (tv_user_id vals = None -> write_vals env vals = vals).
Proof.
  intros v. subst v. unfold create_vals, write_vals.
  destruct vals as [ty u da st pr]. simpl.
  split; [|split; [|split; [|split; [|split]]]].
  - destruct ty as [ty|]; simpl;
      repeat match goal with
             | |- context [if ?c then _ else _] => destruct c eqn:?
             | |- context [match search_to_do env with _ => _ end] =>
                 destruct (search_to_do env)
             end; simpl in *; congruence.
  - destruct ty as [ty|]; simpl;
      repeat match goal with
             | |- context [if ?c then _ else _] => destruct c eqn:?
             | |- context [match search_to_do env with _ => _ end] =>
                 destruct (search_to_do env)
             end; simpl in *; congruence.
  - intros Hu. destruct ty as [ty|]; simpl; rewrite ?Hu, ?andb_false_r; simpl;
      repeat match goal with
             | |- context [if ?c then _ else _] => destruct c eqn:?
             | |- context [match search_to_do env with _ => _ end] =>
                 destruct (search_to_do env)
             end; simpl in *; congruence.
  - intros -> Hid. apply Z.eqb_neq in Hid. simpl.
    destruct (truthy_id u) eqn:Eu; simpl.
    + rewrite Eu.
      repeat match goal with
             | |- context [if ?c then _ else _] => destruct c eqn:?
             | |- context [match search_to_do env with _ => _ end] =>
                 destruct (search_to_do env)
             end; simpl in *; congruence.
    + rewrite Hid. simpl.
      repeat match goal with
             | |- context [if ?c then _ else _] => destruct c eqn:?
             | |- context [match search_to_do env with _ => _ end] =>
                 destruct (search_to_do env)
             end; simpl in *; rewrite ?Hid; reflexivity.
  - intros u' ->. reflexivity.
  - intros ->. reflexivity.
Qed.

End TaskFormMore.

(** ** The groups of the time-tracking summary *)

Section SummaryGroups.

Import TaskManagement.

Lemma dict_get_set_same {V} (k : Z) (v : V) (d : dict V) :
  dict_get k (dict_set k v d) = Some v.
Proof.
  induction d as [|[k' v'] d IH]; simpl.
  - now rewrite Z.eqb_refl.
  - destruct (k =? k')%Z eqn:E; simpl; rewrite ?Z.eqb_refl, ?E; auto.
Qed.

Lemma dict_get_set_other {V} (k k' : Z) (v : V) (d : dict V) :
  k <> k' -> dict_get k (dict_set k' v d) = dict_get k d.
Proof.
  intros Hne. induction d as [|[k0 v0] d IH]; simpl.
  - apply Z.eqb_neq in Hne. now rewrite Hne.
  - destruct (k' =? k0)%Z eqn:E; simpl.
    + apply Z.eqb_eq in E. subst k0.
      apply Z.eqb_neq in Hne. now rewrite Hne.
    + destruct (k =? k0)%Z; auto.
Qed.

Lemma dict_set_keys {V} (k k' : Z) (v : V) (d : dict V) :
  In k (map fst (dict_set k' v d)) <-> k = k' \/ In k (map fst d).
Proof.
  induction d as [|[k0 v0] d IH]; simpl.
  - intuition.
  - destruct (k' =? k0)%Z eqn:E; simpl.
    + apply Z.eqb_eq in E. subst k0. intuition.
    + rewrite IH. intuition.
Qed.

Lemma dict_set_nodup {V} (k : Z) (v : V) (d : dict V) :
  NoDup (map fst d) -> NoDup (map fst (dict_set k v d)).
Proof.
  induction d as [|[k0 v0] d IH]; simpl; intros H.
  - repeat constructor. intros [].
  - inversion H as [|? ? Hk0 Hd]; subst.
    destruct (k =? k0)%Z eqn:E; simpl.
    + apply Z.eqb_eq in E. subst k0. now constructor.
    + constructor; [|now apply IH].
      rewrite dict_set_keys. apply Z.eqb_neq in E. intuition.
Qed.

(** The groups looked up after one more time log. *)
Lemma group_timesheet_get (acc : dict SubtaskTime) (l : Line) (k : Z) :
  dict_get k (group_timesheet acc l)
  = if (timesheet_key l =? k)%Z
    then absorb_timesheet (dict_get k acc) l
    else dict_get k acc.
Proof.
  unfold group_timesheet. fold (timesheet_key l) (timesheet_group_name l).
  destruct (timesheet_key l =? k)%Z eqn:E.
  - apply Z.eqb_eq in E. subst k. rewrite dict_get_set_same.
    unfold absorb_timesheet, timesheet_entry.
    destruct (dict_get (timesheet_key l) acc); reflexivity.
  - apply Z.eqb_neq in E. apply dict_get_set_other. congruence.
Qed.

Lemma fold_group_get (logs : list Line) (acc : dict SubtaskTime) (k : Z) :
  dict_get k (fold_left group_timesheet logs acc)
  = fold_left absorb_timesheet
      (filter (fun l => (timesheet_key l =? k)%Z) logs) (dict_get k acc).
Proof.
  revert acc. induction logs as [|l logs IH]; intros acc; simpl.
  - reflexivity.
  - rewrite IH, group_timesheet_get.
    destruct (timesheet_key l =? k)%Z; reflexivity.
Qed.

Lemma absorb_from_group (logs : list Line) (g : SubtaskTime) :
  exists g',
    fold_left absorb_timesheet logs (Some g) = Some g'
    /\ st_name g' = st_name g
    /\ st_total_hours g' == st_total_hours g + sumQ (map unit_amount logs)
    /\ st_entries g' = st_entries g ++ map timesheet_entry logs.
Proof.
  revert g. induction logs as [|l logs IH]; intros g; simpl.
  - exists g. repeat split; [ring | now rewrite app_nil_r].
  - destruct (IH (mkSubtaskTime (st_name g)
                    (st_total_hours g + unit_amount l)
                    (st_entries g ++ [timesheet_entry l])))
      as [g' [Hf [Hn [Ht He]]]].
    exists g'. simpl in *. repeat split; auto.
    + rewrite Ht. ring.
    + rewrite He, <- app_assoc. reflexivity.
Qed.

(** X14: in the time-tracking summary the group of a key exists exactly
    when the task has a time log of that key (the identifier of the
    subtask, 0 without subtask); it is named after the first such time log
    (its subtask, or "Other Work"), its total is the sum of their
    durations, and its entries are theirs, in their order. *)
Theorem summary_group (task : Task) (k : Z) :
  let logs := filter (fun l => (timesheet_key l =? k)%Z) (timesheet_ids task) in
  match dict_get k (by_subtask (get_time_tracking_summary task)) with
  | None => logs = []
  | Some g =>
      exists first rest,
        logs = first :: rest
        /\ st_name g = timesheet_group_name first
        /\ st_total_hours g == sumQ (map unit_amount logs)
        /\ st_entries g = map timesheet_entry logs
  end.
Proof.
  intros logs. unfold get_time_tracking_summary. cbn [by_subtask].
  rewrite fold_group_get.
  change (filter (fun l => (timesheet_key l =? k)%Z) (timesheet_ids task))
    with logs.
  change (dict_get k []) with (@None SubtaskTime).
  clearbody logs. destruct logs as [|first rest]; [reflexivity|].
  set (g0 := mkSubtaskTime (timesheet_group_name first)
                           (0 + unit_amount first)
                           ([] ++ [timesheet_entry first])).
  change (fold_left absorb_timesheet (first :: rest) None)
    with (fold_left absorb_timesheet rest (Some g0)).
  destruct (absorb_from_group rest g0) as [g' [Hf [Hn [Ht He]]]].
  rewrite Hf. exists first, rest. subst g0. simpl in *.
  repeat split; auto. rewrite Ht. ring.
Qed.

Lemma dict_entries_set (k : Z) (v : SubtaskTime) (d : dict SubtaskTime) :
  (dict_entries (dict_set k v d)
   + match dict_get k d with
     | Some g => List.length (st_entries g)
     | None => 0
     end
   = dict_entries d + List.length (st_entries v))%nat.
Proof.
  unfold dict_entries. induction d as [|[k0 v0] d IH]; simpl.
  - lia.
  - destruct (k =? k0)%Z eqn:E; simpl; lia.
Qed.

(** One time log adds one entry to the groups. *)
Lemma group_timesheet_entries (acc : dict SubtaskTime) (l : Line) :
  dict_entries (group_timesheet acc l) = S (dict_entries acc).
Proof.
  unfold group_timesheet.
  match goal with
  | |- dict_entries (dict_set ?k ?v acc) = _ =>
      pose proof (dict_entries_set k v acc) as H
  end.
  cbn [st_entries] in H. rewrite length_app in H. cbn [List.length] in H.
  destruct (dict_get _ acc); cbn [st_entries List.length] in *; lia.
Qed.

Lemma fold_group_entries (logs : list Line) (acc : dict SubtaskTime) :
  dict_entries (fold_left group_timesheet logs acc)
  = (dict_entries acc + List.length logs)%nat.
Proof.
  revert acc. induction logs as [|l logs IH]; intros acc; simpl.
  - lia.
  - rewrite IH, group_timesheet_entries. lia.
Qed.

Lemma fold_group_nodup (logs : list Line) (acc : dict SubtaskTime) :
  NoDup (map fst acc) ->
  NoDup (map fst (fold_left group_timesheet logs acc)).
Proof.
  revert acc. induction logs as [|l logs IH]; intros acc H; simpl.
  - exact H.
  - apply IH. unfold group_timesheet. now apply dict_set_nodup.
Qed.

Lemma fold_group_keys (logs : list Line) (acc : dict SubtaskTime) (k : Z) :
  In k (map fst (fold_left group_timesheet logs acc))
  <-> In k (map fst acc) \/ exists l, In l logs /\ timesheet_key l = k.
Proof.
  revert acc. induction logs as [|l logs IH]; intros acc; simpl.
  - split; [now left | intros [H | [l [[] _]]]; exact H].
  - rewrite IH. unfold group_timesheet at 1. rewrite dict_set_keys.
    fold (timesheet_key l). split.
    + intros [[Hk | Hk] | [l' [Hin Hk]]].
      * right. exists l. split; [now left | now symmetry].
      * now left.
      * right. exists l'. split; [now right | exact Hk].
    + intros [Hk | [l' [[Hl | Hin] Hk]]].
      * left. now right.
      * subst l'. left. left. now symmetry.
      * right. exists l'. now split.
Qed.

(** X15: the groups of the summary have distinct keys, which are the
    keys of the time logs of the task (the identifier of the subtask, 0
    without subtask), and every time log is an entry of one group: the
    numbers of entries of the groups add up to the number of time logs. *)
Theorem summary_groups_partition (task : Task) :
  let s := get_time_tracking_summary task in
  NoDup (map fst (by_subtask s))
  /\ (forall k,
        In k (map fst (by_subtask s))
        <-> exists l, In l (timesheet_ids task) /\ timesheet_key l = k)
  /\ dict_entries (by_subtask s) = List.length (timesheet_ids task).
Proof.
  simpl. split; [|split].
  - apply fold_group_nodup. constructor.
  - intros k. rewrite fold_group_keys. simpl. tauto.
  - rewrite fold_group_entries. reflexivity.
Qed.

(** X16: once the remaining hours are recomputed, the summary reports a
    task over budget exactly when its planned hours are not zero and its
    remaining hours are negative. *)
Theorem over_budget_remaining (task : Task) :
  let s := get_time_tracking_summary (_compute_remaining_hours_1 task) in
  is_over_budget s = true
  <-> ~ planned_hours task == 0 /\ remaining s < 0.
Proof.
  simpl.
  assert (Hp : planned_hours (_compute_remaining_hours_1 task)
               = planned_hours task
               /\ effective_hours (_compute_remaining_hours_1 task)
                  = effective_hours task).
  { unfold _compute_remaining_hours_1.
    repeat match goal with
           | |- context [if ?c then _ else _] => destruct c
           end; auto. }
  destruct Hp as [Hp He]. rewrite Hp, He, remaining_hours_second.
  rewrite or_else_zero.
  unfold Py.truthy. destruct (Qeq_bool (planned_hours task) 0) eqn:E; simpl.
  - apply Qeq_bool_iff in E. split; [discriminate | tauto].
  - rewrite ltb_lt.
    assert (Hn : ~ planned_hours task == 0).
    { intros H. apply Qeq_bool_iff in H. congruence. }
    split.
    + intros H. split; [exact Hn|].
      apply (Qplus_lt_l _ _ (effective_hours task)). ring_simplify. exact H.
    + intros [_ H].
      apply (Qplus_lt_l _ _ (effective_hours task)) in H.
      ring_simplify in H. exact H.
Qed.

End SummaryGroups.

(** ** The checks of a time log on recordsets and in the form *)

Section ChecksMore.

Import TaskTimesheetLine TaskTimesheetLineMore.

Variable env : Env.

Lemma date_past_limit_dec (r : Line) :
  {date_past_limit env r} + {~ date_past_limit env r}.
Proof.
  unfold date_past_limit. destruct (subtask_deadline r); apply Z_lt_dec.
Qed.

Lemma check_date_cons (r : Line) (rest : list Line) :
  (date_past_limit env r -> _check_date env (r :: rest) = _check_date env [r])
  /\ (date_past_limit env r -> raises (_check_date env [r]))
  /\ (~ date_past_limit env r ->
      _check_date env (r :: rest) = _check_date env rest).
Proof.
  unfold date_past_limit. simpl. unfold PyDate.gtb.
  destruct (subtask_deadline r) as [d|].
  - destruct (d <? line_date r)%Z eqn:E.
    + repeat split; try reflexivity; [eexists; reflexivity|].
      intros H. apply Z.ltb_lt in E. contradiction.
    + apply Z.ltb_ge in E. repeat split; try reflexivity; lia.
  - destruct (datetime_now_date env <? line_date r)%Z eqn:E.
    + repeat split; try reflexivity; [eexists; reflexivity|].
      intros H. apply Z.ltb_lt in E. contradiction.
    + apply Z.ltb_ge in E. repeat split; try reflexivity; lia.
Qed.

(** X17: on a recordset the date check raises exactly when a record is
    dated after its limit, the deadline of its subtask or else today, and
    it raises the error of the first such record. *)
Theorem check_date_recordset (self : list Line) :
  (raises (_check_date env self) <-> Exists (date_past_limit env) self)
  /\ (forall before record after,
        self = before ++ record :: after ->
        Forall (fun r => ~ date_past_limit env r) before ->
        date_past_limit env record ->
        _check_date env self = _check_date env [record]).
Proof.
  split.
  - induction self as [|r rest IH].
    + split; [intros [e He]; discriminate | intros H; inversion H].
    + destruct (check_date_cons r rest) as [Hin [Hr Hout]].
      rewrite Exists_cons. destruct (date_past_limit_dec r) as [Hp | Hp].
      * rewrite (Hin Hp). split; [now left | intros _; now apply Hr].
      * rewrite (Hout Hp), IH. tauto.
  - intros before record after -> Hb Hr.
    induction Hb as [|r before Hn _ IH]; simpl app.
    + now apply check_date_cons.
    + destruct (check_date_cons r (before ++ record :: after)) as [_ [_ Hout]].
      now rewrite (Hout Hn).
Qed.

(** X18: the date handler of the form warns exactly when the date check
    would raise on the same records, and never for a record whose date
    was emptied. *)
Theorem onchange_date_agrees (self : list Line) :
  (_onchange_date env (with_dates self) <> None
   <-> raises (_check_date env self))
  /\ _onchange_date env (map (fun r => (None, r)) self) = None.
Proof.
  split.
  - induction self as [|r rest IH]; simpl.
    + split; [congruence | intros [e He]; discriminate].
    + fold (with_dates rest).
      destruct (subtask_deadline r) as [d|].
      * destruct (PyDate.gtb (line_date r) d).
        -- split; [intros _; eexists; reflexivity | discriminate].
        -- exact IH.
      * destruct (PyDate.gtb (line_date r) (datetime_now_date env)).
        -- split; [intros _; eexists; reflexivity | discriminate].
        -- exact IH.
  - induction self as [|r rest IH]; simpl; [reflexivity | exact IH].
Qed.

Lemma not_valid_duration (r : Line) :
  ~ valid_duration r <-> unit_amount r <= 0 \/ 24 # 1 < unit_amount r.
Proof.
  unfold valid_duration. split.
  - intros H. destruct (Qlt_le_dec 0 (unit_amount r)) as [H0 | H0]; [|now left].
    destruct (Qlt_le_dec (24 # 1) (unit_amount r)) as [H24 | H24]; [now right|].
    tauto.
  - intros [H | H] [H0 H24].
    + now apply (Qle_not_lt _ _ H).
    + now apply (Qle_not_lt _ _ H24).
Qed.

Lemma check_unit_amount_cons (r : Line) (rest : list Line) :
  (~ valid_duration r -> raises (_check_unit_amount env (r :: rest)))
  /\ (valid_duration r ->
      (12 # 1 < unit_amount r /\ skip_duration_warning env = false ->
       exists w, _check_unit_amount env (r :: rest) = Returned (Some w))
      /\ (~ (12 # 1 < unit_amount r /\ skip_duration_warning env = false) ->
          _check_unit_amount env (r :: rest) = _check_unit_amount env rest)).
Proof.
  simpl. split.
  - intros H. apply not_valid_duration in H. destruct H as [H | H].
    + apply leb_le in H. rewrite H. eexists; reflexivity.
    + destruct (Py.leb (unit_amount r) 0); [eexists; reflexivity|].
      apply ltb_lt in H. rewrite H. eexists; reflexivity.
  - intros [H0 H24]. apply leb_gt in H0. apply ltb_ge in H24.
    rewrite H0, H24. split.
    + intros [H12 Hs]. apply ltb_lt in H12. rewrite H12, Hs. simpl.
      eexists; reflexivity.
    + intros H. destruct (Py.ltb (12 # 1) (unit_amount r)) eqn:E12;
        [|reflexivity].
      destruct (skip_duration_warning env) eqn:Es; [reflexivity|].
      exfalso. apply H. split; [now apply ltb_lt | reflexivity].
Qed.

(** X19: on a recordset the duration check raises only when a record has
    a duration outside (0, 24]; when it returns no warning every record
    is within (0, 24]; under [skip_duration_warning] it returns no warning
    and raises exactly when a record is outside (0, 24]. *)
Theorem check_unit_amount_recordset (self : list Line) :
  (raises (_check_unit_amount env self) ->
   Exists (fun r => ~ valid_duration r) self)
  /\ (_check_unit_amount env self = Returned None ->
      Forall valid_duration self)
  /\ (skip_duration_warning env = true ->
      (raises (_check_unit_amount env self)
       <-> Exists (fun r => ~ valid_duration r) self)
      /\ (~ raises (_check_unit_amount env self) ->
          _check_unit_amount env self = Returned None)).
Proof.
  assert (Hdec : forall r, valid_duration r \/ ~ valid_duration r).
  { intros r. unfold valid_duration.
    destruct (Qlt_le_dec 0 (unit_amount r)) as [H0 | H0];
      destruct (Qlt_le_dec (24 # 1) (unit_amount r)) as [H24 | H24].
    - right. intros [_ H]. now apply (Qle_not_lt _ _ H).
    - now left.
    - right. intros [H _]. now apply (Qle_not_lt _ _ H0).
    - right. intros [H _]. now apply (Qle_not_lt _ _ H0). }
  assert (Hw : forall r,
             {12 # 1 < unit_amount r /\ skip_duration_warning env = false}
             + {~ (12 # 1 < unit_amount r /\ skip_duration_warning env = false)}).
  { intros r. destruct (Qlt_le_dec (12 # 1) (unit_amount r)) as [H | H];
      destruct (skip_duration_warning env); auto;
      right; intros [H1 H2]; try discriminate;
      now apply (Qle_not_lt _ _ H). }
  split; [|split].
  - induction self as [|r rest IH]; [intros [e He]; discriminate|].
    destruct (check_unit_amount_cons r rest) as [_ Hv].
    destruct (Hdec r) as [Hr | Hr]; [|intros _; now left].
    destruct (Hv Hr) as [Hwarn Hnext].
    destruct (Hw r) as [H | H].
    + destruct (Hwarn H) as [w E]. rewrite E. intros [e He]. discriminate.
    + rewrite (Hnext H). intros Hrest. right. now apply IH.
  - induction self as [|r rest IH]; [constructor|].
    destruct (check_unit_amount_cons r rest) as [Hbad Hv].
    destruct (Hdec r) as [Hr | Hr].
    + destruct (Hv Hr) as [Hwarn Hnext].
      destruct (Hw r) as [H | H].
      * destruct (Hwarn H) as [w E]. rewrite E. discriminate.
      * rewrite (Hnext H). intros Hrest. constructor; auto.
    + destruct (Hbad Hr) as [e E]. rewrite E. discriminate.
  - intros Hskip. induction self as [|r rest [IH1 IH2]].
    + split; [split|]; [intros [e He]; discriminate | intros H; inversion H
                        | reflexivity].
    + destruct (check_unit_amount_cons r rest) as [Hbad Hv].
      destruct (Hdec r) as [Hr | Hr].
      * destruct (Hv Hr) as [_ Hnext].
        rewrite Hnext by (intros [_ H]; congruence).
        rewrite Exists_cons. split; [|exact IH2]. rewrite IH1. tauto.
      * split; [split; [now left | intros _; now apply Hbad]|].
        intros H. exfalso. apply H. now apply Hbad.
Qed.

(** X20: every choice of the quick entry gives a duration that the
    duration check accepts without warning, whatever the duration was
    before; with no choice the record is unchanged. *)
Theorem quick_time_accepted (quick_time : QuickTime) (record : Line) :
  _check_unit_amount env [_onchange_quick_time (Some quick_time) record]
  = Returned None
  /\ _onchange_quick_time None record = record.
Proof.
  split; [|reflexivity]. destruct quick_time; reflexivity.
Qed.

End ChecksMore.

(** ** The duration from a time range and its display *)

Section DurationMore.

Import TaskTimesheetLine TaskTimesheetLineMore.

Lemma truthy_nonzero (x : Q) : Py.truthy x = true <-> ~ x == 0.
Proof.
  unfold Py.truthy. rewrite negb_true_iff, <- not_true_iff_false.
  now rewrite Qeq_bool_iff.
Qed.

(** X21: the handler of the time range raises exactly when both times
    are not zero and the end is before the start; otherwise, with both
    times not zero, it sets the duration to their difference, which is
    not negative, and touches nothing else; with a start or an end of
    zero (midnight, or an empty field) it leaves the record as it is. *)
Theorem time_range_duration (time_start time_end : Q) (record : Line) :
  ((exists e, _onchange_time_range time_start time_end record = inl e)
   <-> ~ time_start == 0 /\ ~ time_end == 0 /\ time_end < time_start)
  /\ (~ time_start == 0 -> ~ time_end == 0 -> time_start <= time_end ->
      _onchange_time_range time_start time_end record
      = inr (set_unit_amount (time_end - time_start) record)
      /\ 0 <= time_end - time_start)
  /\ (time_start == 0 \/ time_end == 0 ->
      _onchange_time_range time_start time_end record = inr record).
Proof.
  unfold _onchange_time_range.
  destruct (Py.truthy time_start) eqn:Es; destruct (Py.truthy time_end) eqn:Ee;
    simpl.
  - apply truthy_nonzero in Es, Ee.
    destruct (Py.ltb time_end time_start) eqn:El.
    + apply ltb_lt in El. split; [|split].
      * split; [tauto | intros _; eexists; reflexivity].
      * intros _ _ H. exfalso. now apply (Qle_not_lt _ _ H).
      * intros [H | H]; contradiction.
    + apply ltb_ge in El. split; [|split].
      * split; [intros [e He]; discriminate|].
        intros [_ [_ H]]. exfalso. now apply (Qle_not_lt _ _ El).
      * intros _ _ _. split; [reflexivity|].
        unfold Qminus. rewrite <- (Qplus_opp_r time_start).
        apply Qplus_le_compat; [exact El | apply Qle_refl].
      * intros [H | H]; contradiction.
  - apply not_true_iff_false in Ee. rewrite truthy_nonzero in Ee.
    split; [|split].
    + split; [intros [e He]; discriminate | tauto].
    + tauto.
    + reflexivity.
  - apply not_true_iff_false in Es. rewrite truthy_nonzero in Es.
    split; [|split].
    + split; [intros [e He]; discriminate | tauto].
    + tauto.
    + reflexivity.
  - apply not_true_iff_false in Es. rewrite truthy_nonzero in Es.
    split; [|split].
    + split; [intros [e He]; discriminate | tauto].
    + tauto.
    + reflexivity.
Qed.

(** X22: when the handler of the time range has set the duration, the
    duration check raises "Duration must be greater than 0 hours."
    exactly when the end equals the start, and it does not raise when the
    end is after the start by at most 24 hours. *)
Theorem time_range_then_check (env : Env) (time_start time_end : Q)
  (record record' : Line) :
  ~ time_start == 0 -> ~ time_end == 0 ->
  _onchange_time_range time_start time_end record = inr record' ->
  (_check_unit_amount env [record']
   = Raised (ValidationError "Duration must be greater than 0 hours.")
   <-> time_end == time_start)
  /\ (time_start < time_end -> time_end - time_start <= 24 # 1 ->
      ~ raises (_check_unit_amount env [record'])).
Proof.
  intros Hs He H. unfold _onchange_time_range in H.
  rewrite (proj2 (truthy_nonzero _) Hs), (proj2 (truthy_nonzero _) He) in H.
  simpl in H.
  destruct (Py.ltb time_end time_start) eqn:El; [discriminate|].
  apply ltb_ge in El. injection H as <-.
  destruct (check_unit_amount_one env
              (set_unit_amount (time_end - time_start) record))
    as [H0 [H24 Hok]]. unfold valid_duration in Hok.
  cbn [unit_amount set_unit_amount] in H0, H24, Hok.
  assert (Hdiff : time_end - time_start <= 0 <-> time_end == time_start).
  { split.
    - intros Hd. apply Qle_antisym; [|exact El].
      apply (Qplus_le_l _ _ (- time_start)). rewrite Qplus_opp_r. exact Hd.
    - intros Heq. unfold Qminus. rewrite Heq, Qplus_opp_r. apply Qle_refl. }
  split.
  - rewrite <- Hdiff. split.
    + intros Hr.
      destruct (Qlt_le_dec 0 (time_end - time_start)) as [Hp | Hp];
        [|exact Hp].
      destruct (Qlt_le_dec (24 # 1) (time_end - time_start)) as [Hb | Hb].
      * rewrite (H24 Hb) in Hr. discriminate.
      * destruct (Hok (conj Hp Hb)) as [w [Ew _]]. congruence.
    + exact H0.
  - intros Hlt Hle [e Hr].
    assert (Hp : 0 < time_end - time_start).
    { apply (Qplus_lt_l _ _ time_start). ring_simplify. exact Hlt. }
    destruct (Hok (conj Hp Hle)) as [w [Ew _]]. congruence.
Qed.

Lemma range_forallb (P : Z -> bool) (n : nat) :
  forallb (fun i => P (Z.of_nat i)) (seq 0 n) = true ->
  forall z, (0 <= z < Z.of_nat n)%Z -> P z = true.
Proof.
  intros H z Hz. rewrite forallb_forall in H.
  rewrite <- (Z2Nat.id z) by lia. apply H. apply in_seq. lia.
Qed.

Lemma string_length_app (s t : string) :
  String.length (s ++ t) = (String.length s + String.length t)%nat.
Proof. induction s as [|c s IH]; simpl; [reflexivity | now rewrite IH]. Qed.

Lemma format_02d_length (z : Z) :
  (0 <= z < 100)%Z -> String.length (format_02d z) = 2%nat.
Proof.
  intros H. apply Nat.eqb_eq.
  apply (range_forallb
           (fun z => Nat.eqb (String.length (format_02d z)) 2) 100);
    [vm_compute; reflexivity | exact H].
Qed.

End DurationMore.

(** ** The display of a duration *)

Section DisplayMore.

Import TaskTimesheetLineMore PrimFloat.

(** X23: when [int(unit_amount * 60)], computed on binary64 numbers as
    Python does, is a number of minutes from 0 to 5999, the display is
    "HH:MM", five characters, with HH from 00 to 99, MM from 00 to 59
    and [HH * 60 + MM] that number of minutes. *)
Theorem hours_display_shape (unit_amount : float) (total_minutes : Z) :
  Binary64.int (unit_amount * 60)%float = inr total_minutes ->
  (0 <= total_minutes < 6000)%Z ->
  exists hours minutes,
    _compute_hours_display_1 unit_amount
    = inr (format_02d hours ++ ":" ++ format_02d minutes)%string
    /\ (0 <= hours <= 99)%Z /\ (0 <= minutes <= 59)%Z
    /\ (hours * 60 + minutes)%Z = total_minutes
    /\ String.length (format_02d hours ++ ":" ++ format_02d minutes) = 5%nat.
Proof.
  intros Hint Hrange. unfold _compute_hours_display_1. rewrite Hint.
  pose proof (Z.div_mod total_minutes 60 ltac:(lia)) as Hdm.
  pose proof (Z.mod_pos_bound total_minutes 60 ltac:(lia)) as Hm.
  assert (Hh : (0 <= total_minutes / 60 <= 99)%Z) by lia.
  exists (total_minutes / 60)%Z, (total_minutes mod 60)%Z.
  split; [reflexivity|]. split; [exact Hh|]. split; [lia|]. split; [lia|].
  rewrite !string_length_app, !format_02d_length by lia. reflexivity.
Qed.

End DisplayMore.

Section CreateMore.

Import TaskTimesheetLine.

(** X24: a time log that [create] inserts never has an empty work
    description: a given description that is not empty is kept; without
    one the description is "Worked on: " and the name of the subtask, or
    "General work" without subtask. *)
Theorem create_fills_name (env : Env) (new_id : Z) (vals : Vals)
  (record : Line) :
  create env new_id vals = inr record ->
  line_name record <> EmptyString
  /\ (forall n, v_name vals = Some n -> n <> EmptyString ->
      line_name record = n)
  /\ (no_name vals = true ->
      forall subtask, v_subtask_id vals = Some (Some subtask) ->
      line_name record = ("Worked on: " ++ subtask_name subtask)%string)
  /\ (no_name vals = true ->
      v_subtask_id vals = None \/ v_subtask_id vals = Some None ->
      line_name record = "General work"%string).
Proof.
  unfold create, orm_create.
  destruct (v_task_id (autofill_name vals)) as [task|]; [|discriminate].
  destruct (_validate_fields env _ _); [discriminate|].
  intros H. injection H as <-.
  destruct vals as [n t s u d a]. unfold autofill_name, no_name. simpl.
  destruct s as [[s|]|]; destruct n as [[|c n]|]; simpl;
    repeat split; try discriminate; try congruence;
    try (intros n' Hn; injection Hn as <-; congruence);
    try (intros _ s' Hs; congruence);
    try (intros _ [Hs | Hs]; congruence).
Qed.

End CreateMore.

(** ** More on the weekly summary *)

Section WeeklyMore.

Import TaskTimesheetLine.

Variable env : Env.
Variable table : list Line.
Variables (user_id : option Z) (date_from date_to : option date).

Let user : Z := default_user_id env user_id.
Let first_day : date := default_date_from env date_from.
Let last_day : date := default_date_to first_day date_to.
Let considered : list Line :=
  filter (weekly_domain user first_day last_day) table.
Let time_logs : list Line :=
  search (weekly_domain user first_day last_day) table.
Let s : WeeklySummary :=
  get_weekly_summary env table user_id date_from date_to.

Lemma time_logs_considered : Permutation time_logs considered.
Proof. apply search_permutation. Qed.

(** The logs of the tasks that pass a test and of those that fail it. *)
Lemma concat_split (F : Ref -> list Line) (p : Ref -> bool) (M : list Ref) :
  Permutation (List.concat (map F M))
              (List.concat (map F (filter p M))
               ++ List.concat (map F (filter (fun t => negb (p t)) M))).
Proof.
  induction M as [|t M IH]; simpl; [constructor|].
  destruct (p t); simpl.
  - rewrite <- app_assoc. now apply Permutation_app_head.
  - rewrite IH. apply Permutation_app_swap_app.
Qed.

Lemma filter_id_single (k : Z) (M : list Ref) :
  NoDup (map ref_id M) ->
  filter (fun t => (ref_id t =? k)%Z) M = []
  \/ exists t, filter (fun t => (ref_id t =? k)%Z) M = [t] /\ ref_id t = k.
Proof.
  induction M as [|t M IH]; simpl; intros H; [now left|].
  inversion H as [|? ? Ht HM]; subst.
  destruct (ref_id t =? k)%Z eqn:E.
  - right. exists t. apply Z.eqb_eq in E. split; [|exact E].
    f_equal. destruct (IH HM) as [Hn | [t' [Hf Hid]]]; [exact Hn|].
    exfalso. apply Ht. rewrite E, <- Hid. apply in_map.
    assert (Hin : In t' (filter (fun t => (ref_id t =? k)%Z) M))
      by (rewrite Hf; now left).
    apply filter_In in Hin. apply Hin.
  - now apply IH.
Qed.

(** The time logs of a list, task by task, are the time logs of the
    list. *)
Lemma logs_by_task (logs : list Line) :
  Permutation
    (List.concat (map (fun task =>
                    filter (fun l => (ref_id (line_task_id l) =? ref_id task)%Z)
                           logs)
                 (mapped_task_id logs)))
    logs.
Proof.
  induction logs as [|r logs IH]; [constructor|].
  cbn [mapped_task_id map List.concat].
  assert (Hhead : filter (fun l => (ref_id (line_task_id l)
                                    =? ref_id (line_task_id r))%Z) (r :: logs)
                  = r :: filter (fun l => (ref_id (line_task_id l)
                                           =? ref_id (line_task_id r))%Z) logs).
  { cbn [filter]. now rewrite Z.eqb_refl. }
  rewrite Hhead. clear Hhead. cbn [app]. constructor.
  set (k := ref_id (line_task_id r)).
  set (F := fun task : Ref =>
              filter (fun l => (ref_id (line_task_id l) =? ref_id task)%Z) logs).
  assert (Hext : map (fun task =>
                        filter (fun l => (ref_id (line_task_id l)
                                          =? ref_id task)%Z) (r :: logs))
                     (filter (fun t => negb (ref_id t =? k)%Z)
                             (mapped_task_id logs))
                 = map F (filter (fun t => negb (ref_id t =? k)%Z)
                                 (mapped_task_id logs))).
  { apply map_ext_in. intros t Ht. apply filter_In in Ht.
    destruct Ht as [_ Ht]. apply negb_true_iff in Ht. subst F. cbn [filter].
    fold k. rewrite Z.eqb_sym, Ht. reflexivity. }
  rewrite Hext.
  apply Permutation_trans with (2 := IH). fold F.
  apply Permutation_sym.
  apply Permutation_trans
    with (1 := concat_split F (fun t => (ref_id t =? k)%Z)
                 (mapped_task_id logs)).
  apply Permutation_app_tail.
  destruct (filter_id_single k (mapped_task_id logs)
              (mapped_task_id_nodup logs)) as [Hn | [t [Hf Hid]]].
  - rewrite Hn. simpl.
    assert (Hnone : filter (fun l => (ref_id (line_task_id l) =? k)%Z) logs
                    = []).
    { destruct (filter _ logs) as [|l rest] eqn:El; [reflexivity|].
      exfalso.
      assert (Hin : In l (filter (fun l => (ref_id (line_task_id l) =? k)%Z)
                                 logs)) by (rewrite El; now left).
      apply filter_In in Hin. destruct Hin as [Hin Hk].
      apply Z.eqb_eq in Hk.
      assert (Hm : In k (map ref_id (mapped_task_id logs))).
      { apply mapped_task_id_ids. rewrite <- Hk.
        apply (in_map (fun r => ref_id (line_task_id r))), Hin. }
      apply in_map_iff in Hm. destruct Hm as [t [Ht Hm]].
      assert (Hf : In t (filter (fun t => (ref_id t =? k)%Z)
                                (mapped_task_id logs))).
      { apply filter_In. split; [exact Hm | now apply Z.eqb_eq]. }
      rewrite Hn in Hf. exact Hf. }
    rewrite Hnone. constructor.
  - rewrite Hf. simpl. rewrite app_nil_r. subst F. simpl. rewrite Hid.
    reflexivity.
Qed.

Lemma summary_fields :
  total_hours s = Py.sum (map unit_amount time_logs)
  /\ days_worked s = len_set (map line_date time_logs)
  /\ tasks_worked s = len_set (map ref_id (mapped_task_id time_logs))
  /\ details s
     = map (fun task =>
              let task_logs :=
                filter (fun l => (ref_id (line_task_id l) =? ref_id task)%Z)
                       time_logs in
              mkDetail (ref_name task) (Py.sum (map unit_amount task_logs))
                       (List.length task_logs))
           (mapped_task_id time_logs).
Proof. repeat split. Qed.

(** X25: the numbers of entries of the details of the weekly summary add
    up to the number of time logs considered, there is one detail per
    task worked, and every detail has at least one entry. *)
Theorem weekly_details_add_up :
  list_sum (map detail_entries (details s)) = List.length considered
  /\ List.length (details s) = tasks_worked s
  /\ Forall (fun d => (1 <= detail_entries d)%nat) (details s).
Proof.
  destruct summary_fields as [_ [_ [Hw Hd]]]. rewrite Hw, Hd.
  clear Hw Hd.
  pose proof (logs_by_task time_logs) as Hp.
  split; [|split].
  - rewrite <- (Permutation_length time_logs_considered).
    rewrite <- (Permutation_length Hp). clear Hp.
    generalize (mapped_task_id time_logs). intros M.
    induction M as [|t M IH]; simpl.
    + reflexivity.
    + rewrite length_app, <- IH. reflexivity.
  - rewrite length_map, len_set_nodup by apply mapped_task_id_nodup.
    now rewrite length_map.
  - apply Forall_map, Forall_forall. intros task Ht.
    cbn [detail_entries].
    assert (Hid : In (ref_id task) (map ref_id (mapped_task_id time_logs)))
      by now apply in_map.
    apply mapped_task_id_ids, in_map_iff in Hid.
    destruct Hid as [l [Hl Hin]].
    assert (Hf : In l (filter (fun l => (ref_id (line_task_id l)
                                         =? ref_id task)%Z) time_logs)).
    { apply filter_In. split; [exact Hin | now apply Z.eqb_eq]. }
    destruct (filter _ time_logs); [destruct Hf | simpl; lia].
Qed.

Lemma nodup_in_range (l : list Z) (a b : Z) :
  NoDup l -> (forall x, In x l -> (a <= x <= b)%Z) ->
  (List.length l <= Z.to_nat (b - a + 1))%nat.
Proof.
  intros Hn Hr.
  assert (Hm : NoDup (map (fun x => Z.to_nat (x - a)) l)).
  { induction Hn as [|x l Hx _ IH]; simpl; constructor.
    - intros Hin. apply in_map_iff in Hin. destruct Hin as [y [Hy Hin]].
      pose proof (Hr x (or_introl eq_refl)). pose proof (Hr y (or_intror Hin)).
      assert (y = x) by lia. subst. contradiction.
    - apply IH. intros y Hy. apply Hr. now right. }
  rewrite <- (length_map (fun x => Z.to_nat (x - a))).
  rewrite <- (length_seq (Z.to_nat (b - a + 1)) 0).
  apply NoDup_incl_length; [exact Hm|].
  intros n Hin. apply in_map_iff in Hin. destruct Hin as [x [<- Hin]].
  apply in_seq. specialize (Hr x Hin). lia.
Qed.

Lemma mapped_task_id_length (l : list Line) :
  (List.length (mapped_task_id l) <= List.length l)%nat.
Proof.
  induction l as [|r l IH]; simpl; [lia|].
  pose proof (filter_length_le
                (fun t => negb (ref_id t =? ref_id (line_task_id r))%Z)
                (mapped_task_id l)). lia.
Qed.

Lemma nodup_length_le (l : list Z) :
  (List.length (nodup Z.eq_dec l) <= List.length l)%nat.
Proof.
  induction l as [|x l IH]; simpl; [lia|].
  destruct (in_dec Z.eq_dec x l); simpl; lia.
Qed.

(** X26: the weekly summary counts at most one day worked per day of the
    range and at most one day and one task per time log considered; with
    the last day omitted it counts at most 7 days. *)
Theorem weekly_counts_bounded :
  (days_worked s <= List.length considered)%nat
  /\ (tasks_worked s <= List.length considered)%nat
  /\ ((first_day <= last_day)%Z ->
      (Z.of_nat (days_worked s) <= last_day - first_day + 1)%Z)
  /\ (date_to = None -> (days_worked s <= 7)%nat).
Proof.
  destruct summary_fields as [_ [Hd [Hw _]]].
  pose proof time_logs_considered as Hp.
  assert (Hrange : forall d, In d (nodup Z.eq_dec (map line_date time_logs)) ->
                             (first_day <= d <= last_day)%Z).
  { intros d Hin. apply nodup_In, in_map_iff in Hin.
    destruct Hin as [l [<- Hin]].
    apply (Permutation_in _ Hp), filter_In in Hin. destruct Hin as [_ Hdom].
    unfold weekly_domain in Hdom.
    apply andb_true_iff in Hdom. destruct Hdom as [Hdom H2].
    apply andb_true_iff in Hdom. destruct Hdom as [_ H1].
    apply Z.leb_le in H1, H2. lia. }
  assert (Hbound : (first_day <= last_day)%Z ->
                   (Z.of_nat (days_worked s) <= last_day - first_day + 1)%Z).
  { intros Hle. rewrite Hd. unfold len_set.
    pose proof (nodup_in_range _ first_day last_day
                  (NoDup_nodup Z.eq_dec _) Hrange). lia. }
  split; [|split; [|split]].
  - rewrite Hd. unfold len_set.
    rewrite <- (Permutation_length Hp), <- (length_map line_date time_logs).
    apply nodup_length_le.
  - rewrite Hw, len_set_nodup by apply mapped_task_id_nodup.
    rewrite length_map, <- (Permutation_length Hp).
    apply mapped_task_id_length.
  - exact Hbound.
  - intros Ht.
    assert (Hl : last_day = (first_day + 6)%Z).
    { subst last_day. rewrite Ht. reflexivity. }
    specialize (Hbound ltac:(lia)). lia.
Qed.

(** X27: when no time log of the table has the user and a date in the
    range, in particular when the range ends before it starts, the weekly
    summary is empty: no hours, no day, no task, no detail. *)
Theorem weekly_summary_empty :
  (forall l, In l table ->
             ~ (ref_id (line_user_id l) = user
                /\ (first_day <= line_date l <= last_day)%Z))
  \/ (last_day < first_day)%Z ->
  s = mkWeeklySummary 0 0%nat 0%nat [].
Proof.
  intros H.
  assert (Hnone : considered = []).
  { subst considered. destruct (filter _ table) as [|l rest] eqn:E;
      [reflexivity|]. exfalso.
    assert (Hin : In l (filter (weekly_domain user first_day last_day) table))
      by (rewrite E; now left).
    apply filter_In in Hin. destruct Hin as [Hin Hdom].
    unfold weekly_domain in Hdom.
    apply andb_true_iff in Hdom. destruct Hdom as [Hdom H2].
    apply andb_true_iff in Hdom. destruct Hdom as [Hu H1].
    apply Z.eqb_eq in Hu. apply Z.leb_le in H1, H2.
    destruct H as [H | H]; [apply (H l Hin); split; [exact Hu | lia] | lia]. }
  subst s. unfold get_weekly_summary, search.
  fold user first_day last_day considered. rewrite Hnone. reflexivity.
Qed.

(** Without user, or with the user 0, the weekly summary is that of
    the current user; with a first day and no last day it covers the 7
    days from that first day, whatever its weekday; with a last day and
    no first day it starts on the Monday of the week of today. *)
Lemma weekly_summary_defaults :
  (user_id = None \/ user_id = Some 0%Z ->
   s = get_weekly_summary env table (Some (ref_id (env_user env)))
                          date_from date_to)
  /\ (forall d,
        date_from = Some d -> date_to = None ->
        s = get_weekly_summary env table user_id (Some d) (Some (d + 6)%Z))
  /\ (forall d,
        date_from = None -> date_to = Some d ->
        s = get_weekly_summary env table user_id
              (Some (date_today env - PyDate.weekday (date_today env))%Z)
              (Some d)).
Proof.
  subst s. split; [|split].
  - intros [-> | ->]; unfold get_weekly_summary, default_user_id; simpl;
      destruct (ref_id (env_user env) =? 0)%Z; reflexivity.
  - intros d -> ->. reflexivity.
  - intros d -> ->. reflexivity.
Qed.

End WeeklyMore.

(** ** Instances of the further properties *)

(** The two time logs of the task "Report" give between 0 and 48 hours. *)
Lemma effective_hours_bounds_witness :
  0 <= effective_hours
         (TaskManagement._compute_effective_hours_1 Sample.task_5h24)
  /\ effective_hours
       (TaskManagement._compute_effective_hours_1 Sample.task_5h24)
     <= (24 # 1) * (2 # 1).
Proof.
  destruct (effective_hours_bounds Sample.task_5h24) as [H0 [_ H24]].
  - repeat constructor; discriminate.
  - split; [exact H0 | exact H24].
Defined.

(** The task "Report" at 40 percent with 5 of 10 hours spent ends within
    5 points of 50. *)
Lemma progress_within_band_witness :
  Qabs (progress (TaskManagement._compute_remaining_hours_1
                    SampleMore.report_5h)
        - Qmin (100 # 1)
               (effective_hours SampleMore.report_5h
                / planned_hours SampleMore.report_5h * (100 # 1)))
  <= 5 # 1.
Proof.
  apply progress_within_band; reflexivity.
Defined.

Lemma compute_remaining_hours_percentage_witness :
  percentage (progress (TaskManagement._compute_remaining_hours_1
                          SampleMore.report_5h)).
Proof.
  apply compute_remaining_hours_percentage.
  - discriminate.
  - split; discriminate.
Defined.

(** One subtask done out of three: a percentage that is neither 100 nor
    0. *)
Lemma progress_from_subtasks_extremes_witness :
  percentage (progress (TaskManagement.update_progress_from_subtasks_1
                          Sample.task_three_subtasks))
  /\ ~ progress (TaskManagement.update_progress_from_subtasks_1
                   Sample.task_three_subtasks) == 100 # 1.
Proof.
  destruct (progress_from_subtasks_extremes Sample.task_three_subtasks)
    as [Hp [H100 _]]; [discriminate|].
  split; [exact Hp|]. intros H. apply H100 in H.
  inversion H as [|? ? _ Hrest]. inversion Hrest as [|? ? Hd _].
  discriminate Hd.
Defined.

Lemma update_progress_percentage_witness :
  percentage (progress (TaskManagement.update_progress_from_subtasks_1
                          Sample.task_three_subtasks)).
Proof.
  apply update_progress_percentage. left. discriminate.
Defined.

(** The task "Report", without subtasks: the stage handler and the
    update agree on 40 percent. *)
Lemma stage_progress_agrees_witness :
  progress (TaskManagement._onchange_stage_id 1700000000 Sample.task_5h24)
  = progress (TaskManagement.update_progress_from_subtasks_1 Sample.task_5h24).
Proof.
  apply stage_progress_agrees. reflexivity.
Defined.

(** A new task with a progress of 50 and no stage gets the stage "To-Do"
    of the registry and the progress 0. *)
Lemma create_stage_and_progress_witness :
  TaskManagementMore.tv_stage_id
    (TaskManagementMore.create_vals SampleMore.task_env
                                    SampleMore.vals_half_done)
  = Some 1%Z
  /\ TaskManagementMore.tv_progress
       (TaskManagementMore.create_vals SampleMore.task_env
                                       SampleMore.vals_half_done)
     = Some 0.
Proof.
  destruct (create_stage_and_progress SampleMore.task_env
              SampleMore.vals_half_done) as [_ [H _]].
  destruct (H eq_refl (1%Z, mkStage "To-Do" "open" false) eq_refl)
    as [_ [_ [Hs Hp]]].
  split; [exact Hs | exact Hp].
Defined.

(** A recordset of a timely log, a late one and one in the future: the
    error is that of the late one. *)
Lemma check_date_recordset_witness :
  TaskTimesheetLine._check_date Sample.env
    [SampleMore.timely_line; Sample.late_line;
     Sample.log 15 (mkRef 1 "Report") 738999 (1 # 1)]
  = TaskTimesheetLine._check_date Sample.env [Sample.late_line].
Proof.
  destruct (check_date_recordset Sample.env
              [SampleMore.timely_line; Sample.late_line;
               Sample.log 15 (mkRef 1 "Report") 738999 (1 # 1)]) as [_ H].
  apply (H [SampleMore.timely_line] Sample.late_line
           [Sample.log 15 (mkRef 1 "Report") 738999 (1 # 1)]).
  - reflexivity.
  - constructor; [|constructor]. unfold date_past_limit. simpl. lia.
  - unfold date_past_limit. simpl. lia.
Defined.

(** With the warning switched off, a log of 13 hours does not hide a log
    of 30 hours behind it. *)
Lemma check_unit_amount_recordset_witness :
  raises (TaskTimesheetLine._check_unit_amount SampleMore.env_skip
            [Sample.log 1 (mkRef 1 "Report") 738965 (13 # 1);
             SampleMore.long_line]).
Proof.
  destruct (check_unit_amount_recordset SampleMore.env_skip
              [Sample.log 1 (mkRef 1 "Report") 738965 (13 # 1);
               SampleMore.long_line]) as [_ [_ H]].
  destruct (H eq_refl) as [Hiff _]. apply Hiff.
  right. left. intros [_ H24]. apply H24. reflexivity.
Defined.

(** From 9:00 to 11:30 the duration is 2.5 hours; from midnight nothing
    is set. *)
Lemma time_range_duration_witness :
  TaskTimesheetLineMore._onchange_time_range (9 # 1) (23 # 2) Sample.edited_line
  = inr (TaskTimesheetLineMore.set_unit_amount ((23 # 2) - (9 # 1))
                                               Sample.edited_line)
  /\ TaskTimesheetLineMore._onchange_time_range 0 (23 # 2) Sample.edited_line
     = inr Sample.edited_line.
Proof.
  destruct (time_range_duration (9 # 1) (23 # 2) Sample.edited_line)
    as [_ [Hset _]].
  destruct (time_range_duration 0 (23 # 2) Sample.edited_line)
    as [_ [_ Hzero]].
  split.
  - apply Hset; discriminate.
  - apply Hzero. left. reflexivity.
Defined.

(** Equal start and end give the duration 0, which the check refuses;
    from 9:00 to 11:30 the duration passes. *)
Lemma time_range_then_check_witness :
  TaskTimesheetLine._check_unit_amount Sample.env
    [TaskTimesheetLineMore.set_unit_amount ((9 # 1) - (9 # 1))
                                           Sample.edited_line]
  = TaskTimesheetLine.Raised
      (TaskTimesheetLine.ValidationError
         "Duration must be greater than 0 hours.")
  /\ ~ raises (TaskTimesheetLine._check_unit_amount Sample.env
                 [TaskTimesheetLineMore.set_unit_amount ((23 # 2) - (9 # 1))
                                                        Sample.edited_line]).
Proof.
  split.
  - apply (time_range_then_check Sample.env (9 # 1) (9 # 1) Sample.edited_line).
    + discriminate.
    + discriminate.
    + reflexivity.
    + reflexivity.
  - apply (time_range_then_check Sample.env (9 # 1) (23 # 2)
             Sample.edited_line).
    + discriminate.
    + discriminate.
    + reflexivity.
    + reflexivity.
    + discriminate.
Defined.

Section DisplayInstances.

Import PrimFloat.

#[local] Set Warnings "-inexact-float".

(** The binary64 product [0.35 * 60] is 21 and [1.15 * 60] is 69: the
    displays are "00:21" and "01:09"; one hour and a half is displayed
    "01:30". *)
Lemma hours_display_shape_witness :
  TaskTimesheetLineMore._compute_hours_display_1 0.35%float
  = inr "00:21"%string
  /\ TaskTimesheetLineMore._compute_hours_display_1 1.15%float
     = inr "01:09"%string
  /\ TaskTimesheetLineMore._compute_hours_display_1 1.5%float
     = inr "01:30"%string.
Proof.
  assert (H : forall u t h m,
            Binary64.int (u * 60)%float = inr t ->
            (0 <= t < 6000)%Z -> (h * 60 + m)%Z = t -> (0 <= m <= 59)%Z ->
            TaskTimesheetLineMore._compute_hours_display_1 u
            = inr (TaskTimesheetLineMore.format_02d h ++ ":"
                   ++ TaskTimesheetLineMore.format_02d m)%string).
  { intros u t h m Hint Hr Ht Hm.
    destruct (hours_display_shape u t Hint Hr)
      as [h' [m' [E [Hh' [Hm' [Ht' _]]]]]].
    assert (h' = h) by lia. assert (m' = m) by lia. subst. exact E. }
  split; [|split].
  - apply (H 0.35%float 21%Z 0%Z 21%Z); [reflexivity | lia | lia | lia].
  - apply (H 1.15%float 69%Z 1%Z 9%Z); [reflexivity | lia | lia | lia].
  - apply (H 1.5%float 90%Z 1%Z 30%Z); [reflexivity | lia | lia | lia].
Defined.

End DisplayInstances.

(** A time log created without description is named "General work". *)
Lemma create_fills_name_witness :
  line_name (Sample.log 1 (mkRef 1 "Report") 738965 (2 # 1)) <> EmptyString.
Proof.
  apply (create_fills_name Sample.env 1 (Sample.vals_hours (2 # 1))).
  reflexivity.
Defined.

(** A week asked for Alice: at most 7 days. *)
Lemma weekly_counts_bounded_witness :
  (TaskTimesheetLine.days_worked
     (TaskTimesheetLine.get_weekly_summary Sample.env_thursday
        Sample.week_table (Some 7%Z) None None) <= 7)%nat.
Proof.
  destruct (weekly_counts_bounded Sample.env_thursday Sample.week_table
              (Some 7%Z) None None) as [_ [_ [_ H]]].
  apply H. reflexivity.
Defined.

(** A range that ends before it starts gives the empty summary. *)
Lemma weekly_summary_empty_witness :
  TaskTimesheetLine.get_weekly_summary Sample.env_thursday Sample.week_table
    (Some 7%Z) (Some 738976%Z) (Some 738970%Z)
  = TaskTimesheetLine.mkWeeklySummary 0 0%nat 0%nat [].
Proof.
  apply weekly_summary_empty. right. reflexivity.
Defined.
